(** * crime_anniversaries.py: the record normalization and merge pipeline

    A shallow embedding of [process_wikidata_results] and of the
    On-This-Day loop and the exporter of [main], with the properties of the
    pipeline proved over it.

    Conventions.
    - A decoded JSON document is a [json] value; a Python [dict] is an
      association list whose lookup returns the first binding of a key.
    - A JSON number is an [int] ([JNum], a [Z]) or a [float] ([JFloat]):
      not-a-number, an infinity, or a finite value [m * 2^e].
    - A Python [str] is a [string], the sequence of its code points; a
      string between quotes stands for the code points of the characters
      written there.
    - What the program takes from a library without the source saying what
      it computes is a variable of the sections: [fromisoformat],
      [strptime], [str()] of a value, [str.lower], and [str.isalnum] on
      the characters from U+0100 on.
    - A Python exception is a value of [exn]; a computation that may raise
      returns a [result]. *)

From Stdlib Require Import ZArith NArith List Bool Lia.
From Stdlib Require Import Permutation Sorted.
From Stdlib.Strings Require Import Byte.
Import ListNotations.

(** ** Strings *)

(** A character is its code point. *)
Definition char : Type := N.

Definition char_eqb (a b : char) : bool := N.eqb a b.

Module String.

Inductive string : Type :=
| EmptyString
| String (c : char) (s : string).

Fixpoint eqb (a b : string) : bool :=
  match a, b with
  | EmptyString, EmptyString => true
  | String x a', String y b' => char_eqb x y && eqb a' b'
  | _, _ => false
  end.

Fixpoint length (s : string) : nat :=
  match s with
  | EmptyString => O
  | String _ s' => S (length s')
  end.

Fixpoint append (a b : string) : string :=
  match a with
  | EmptyString => b
  | String c a' => String c (append a' b)
  end.

(** [a < b]: the order of [str], code point by code point. *)
Fixpoint ltb (a b : string) : bool :=
  match a, b with
  | _, EmptyString => false
  | EmptyString, String _ _ => true
  | String x a', String y b' =>
      (x <? y)%N || (char_eqb x y && ltb a' b')
  end.

End String.

Import String.

(** The code points a string between quotes stands for: the text is read
    as UTF-8. *)
Definition continuation (b : byte) : option N :=
  let n := Byte.to_N b in
  if ((128 <=? n) && (n <? 192))%N then Some (n - 128)%N else None.

Fixpoint of_utf8 (l : list byte) : option string :=
  match l with
  | [] => Some EmptyString
  | b :: l1 =>
      let n := Byte.to_N b in
      if (n <? 128)%N then option_map (String n) (of_utf8 l1)
      else if (n <? 192)%N then None
      else if (n <? 224)%N then
        match l1 with
        | b1 :: l2 =>
            match continuation b1 with
            | Some c1 =>
                option_map (String ((n - 192) * 64 + c1)%N) (of_utf8 l2)
            | None => None
            end
        | _ => None
        end
      else if (n <? 240)%N then
        match l1 with
        | b1 :: b2 :: l3 =>
            match continuation b1, continuation b2 with
            | Some c1, Some c2 =>
                option_map (String ((n - 224) * 4096 + c1 * 64 + c2)%N)
                           (of_utf8 l3)
            | _, _ => None
            end
        | _ => None
        end
      else
        match l1 with
        | b1 :: b2 :: b3 :: l4 =>
            match continuation b1, continuation b2, continuation b3 with
            | Some c1, Some c2, Some c3 =>
                option_map
                  (String ((n - 240) * 262144 + c1 * 4096 + c2 * 64 + c3)%N)
                  (of_utf8 l4)
            | _, _, _ => None
            end
        | _ => None
        end
  end.

Definition byte_of (n : N) : byte :=
  match Byte.of_N n with
  | Some b => b
  | None => x00
  end.

Fixpoint to_utf8 (s : string) : option (list byte) :=
  match s with
  | EmptyString => Some []
  | String c s' =>
      match to_utf8 s' with
      | None => None
      | Some l =>
          if (c <? 128)%N then Some (byte_of c :: l)
          else if (c <? 2048)%N then
            Some (byte_of (192 + c / 64) :: byte_of (128 + c mod 64) :: l)
          else if (c <? 65536)%N then
            Some (byte_of (224 + c / 4096)
                  :: byte_of (128 + (c / 64) mod 64)
                  :: byte_of (128 + c mod 64) :: l)
          else if (c <? 1114112)%N then
            Some (byte_of (240 + c / 262144)
                  :: byte_of (128 + (c / 4096) mod 64)
                  :: byte_of (128 + (c / 64) mod 64)
                  :: byte_of (128 + c mod 64) :: l)
          else None
      end
  end.

(** A character between quotes stands for its code point; a character is
    shown as its number. *)
Definition char_of_utf8 (l : list byte) : option N :=
  match of_utf8 l with
  | Some (String c EmptyString) => Some c
  | _ => None
  end.

Definition utf8_of_char (c : N) : option (list byte) := None.

Declare Scope string_scope.
Delimit Scope string_scope with string.
Bind Scope string_scope with string.
String Notation string of_utf8 to_utf8 : string_scope.
Infix "++" := append (right associativity, at level 60) : string_scope.

Declare Scope char_scope.
Delimit Scope char_scope with char.
String Notation N char_of_utf8 utf8_of_char : char_scope.
Bind Scope char_scope with char.

Open Scope string_scope.
Open Scope Z_scope.

(** ** Exceptions and results *)

Inductive exn : Type :=
| ValueError
| KeyError
| IndexError
| AttributeError
| TypeError.

Inductive result (A : Type) : Type :=
| Ok (a : A)
| Raise (e : exn).

Arguments Ok {A} a.
Arguments Raise {A} e.

Definition bind {A B : Type} (m : result A) (k : A -> result B) : result B :=
  match m with
  | Ok a => k a
  | Raise e => Raise e
  end.

Notation "x <- m ;; k" := (bind m (fun x => k))
  (at level 61, m at next level, right associativity).

Fixpoint mapM {A B : Type} (f : A -> result B) (l : list A) : result (list B) :=
  match l with
  | [] => Ok []
  | a :: l' => b <- f a ;; bs <- mapM f l' ;; Ok (b :: bs)
  end.

(** ** Decoded JSON values *)

(** A Python [float], as [json.loads] gives one for [NaN], [Infinity],
    [-Infinity] and for a number written with a fraction or an exponent:
    [FFin m e] is the value [m * 2^e]. *)
Inductive pyfloat : Type :=
| FNaN
| FInf (negative : bool)
| FFin (m e : Z).

#[local] Unset Elimination Schemes.

Inductive json : Type :=
| JNull
| JBool (b : bool)
| JNum (z : Z)
| JFloat (f : pyfloat)
| JStr (s : string)
| JArr (l : list json)
| JObj (m : list (string * json)).

#[local] Set Elimination Schemes.

Fixpoint assoc {V : Type} (k : string) (m : list (string * V)) : option V :=
  match m with
  | [] => None
  | (k', v) :: m' => if String.eqb k k' then Some v else assoc k m'
  end.

(** [bool(v)]: Python truthiness of a decoded value. *)
Definition truthy (v : json) : bool :=
  match v with
  | JNull => false
  | JBool b => b
  | JNum z => negb (z =? 0)
  | JFloat (FFin m _) => negb (m =? 0)
  | JFloat _ => true
  | JStr s => negb (String.eqb s "")
  | JArr l => match l with [] => false | _ => true end
  | JObj m => match m with [] => false | _ => true end
  end.

(** [v.get(k, d)]: only a dict has the method. *)
Definition py_get (v : json) (k : string) (d : json) : result json :=
  match v with
  | JObj m => Ok (match assoc k m with Some x => x | None => d end)
  | _ => Raise AttributeError
  end.

(** [v[k]] for a string key [k]. *)
Definition py_index (v : json) (k : string) : result json :=
  match v with
  | JObj m => match assoc k m with Some x => Ok x | None => Raise KeyError end
  | _ => Raise TypeError
  end.

(** [v[0]]. A dict decoded from JSON has string keys only. *)
Definition py_first (v : json) : result json :=
  match v with
  | JArr (x :: _) => Ok x
  | JArr [] => Raise IndexError
  | JStr (String c _) => Ok (JStr (String c ""))
  | JStr "" => Raise IndexError
  | JObj _ => Raise KeyError
  | _ => Raise TypeError
  end.

Fixpoint chars (s : string) : list json :=
  match s with
  | "" => []
  | String c s' => JStr (String c "") :: chars s'
  end.

(** [for x in v]: the sequence a loop over [v] visits. *)
Definition py_iter (v : json) : result (list json) :=
  match v with
  | JArr l => Ok l
  | JObj m => Ok (map (fun kv => JStr (fst kv)) m)
  | JStr s => Ok (chars s)
  | _ => Raise TypeError
  end.

(** [l[a:b]] on a list, for non-negative bounds. *)
Definition slice {A : Type} (a b : nat) (l : list A) : list A :=
  firstn (b - a) (skipn a l).

(** ** Methods of [str] *)

Fixpoint prefixb (p s : string) : bool :=
  match p, s with
  | "", _ => true
  | String a p', String b s' => char_eqb a b && prefixb p' s'
  | String _ _, "" => false
  end.

Fixpoint containsb (p s : string) : bool :=
  prefixb p s ||
  match s with
  | "" => false
  | String _ s' => containsb p s'
  end.

(** [s.replace(c, r)] for a one-character pattern [c]. *)
Fixpoint replace_char (c : char) (r : string) (s : string) : string :=
  match s with
  | "" => ""
  | String a s' =>
      if char_eqb a c then r ++ replace_char c r s'
      else String a (replace_char c r s')
  end.

(** [sep.join(l)]. *)
Fixpoint join (sep : string) (l : list string) : string :=
  match l with
  | [] => ""
  | [s] => s
  | s :: l' => s ++ sep ++ join sep l'
  end.

Definition code (c : char) : N := c.

Definition in_range (lo hi : N) (c : char) : bool :=
  ((lo <=? code c) && (code c <=? hi))%N.

(** ** Decimal numbers *)

Definition digit (n : nat) : char := N.of_nat (48 + n).

Fixpoint digits_fuel (fuel n : nat) (acc : string) : string :=
  match fuel with
  | O => acc
  | S fuel' =>
      let acc' := String (digit (n mod 10)) acc in
      match (n / 10)%nat with
      | O => acc'
      | q => digits_fuel fuel' q acc'
      end
  end.

(** [str(n)] for an integer. *)
Definition str_of_nat (n : nat) : string := digits_fuel (S n) n "".

Definition str_of_Z (z : Z) : string :=
  if z <? 0 then String "-" (str_of_nat (Z.to_nat (- z)))
  else str_of_nat (Z.to_nat z).

(** [f"{z:02}"]: zero-padded to a width of two. *)
Definition fmt02 (z : Z) : string :=
  if (0 <=? z) && (z <? 10) then String "0" (str_of_Z z)
  else str_of_Z z.

(** [int(s)] for a string of decimal digits. *)
Fixpoint int_of_digits (s : string) (acc : Z) : option Z :=
  match s with
  | "" => Some acc
  | String c s' =>
      if in_range 48 57 c
      then int_of_digits s' (10 * acc + (Z.of_N (code c) - 48))
      else None
  end.

Definition int_of_str (s : string) : option Z :=
  match s with
  | "" => None
  | _ => int_of_digits s 0
  end.

(** ** Calendar *)

(** [calendar.month_name]: index 0 is the empty string. *)
Definition month_names : list string :=
  [ ""; "January"; "February"; "March"; "April"; "May"; "June"; "July";
    "August"; "September"; "October"; "November"; "December" ].

Definition month_name (m : Z) : string := nth (Z.to_nat m) month_names "".

Definition is_leap (y : Z) : bool :=
  ((y mod 4 =? 0) && negb (y mod 100 =? 0)) || (y mod 400 =? 0).

Definition days_in_month (y m : Z) : Z :=
  if m =? 2 then (if is_leap y then 29 else 28)
  else if (m =? 4) || (m =? 6) || (m =? 9) || (m =? 11) then 30
  else 31.

(** The fields of a [datetime.date] or [datetime.datetime] the program
    reads. *)
Record date : Type := mkdate { year : Z; month_of : Z; day_of : Z }.

(** The check of the [datetime] constructors: a [ValueError] outside. *)
Definition valid_date (y m d : Z) : bool :=
  (1 <=? y) && (y <=? 9999) && (1 <=? m) && (m <=? 12)
  && (1 <=? d) && (d <=? days_in_month y m).

Definition next_day (dt : date) : date :=
  if day_of dt <? days_in_month (year dt) (month_of dt)
  then mkdate (year dt) (month_of dt) (day_of dt + 1)
  else if month_of dt <? 12 then mkdate (year dt) (month_of dt + 1) 1
  else mkdate (year dt + 1) 1 1.

(** [dt + datetime.timedelta(days=n)]. *)
Fixpoint add_days (dt : date) (n : nat) : date :=
  match n with
  | O => dt
  | S n' => next_day (add_days dt n')
  end.

(** [f"{calendar.month_name[dt.month]} {dt.day}"]. *)
Definition date_label (m d : Z) : string :=
  month_name m ++ " " ++ str_of_Z d.

(** ** Settings *)

Definition YEAR_CUTOFF : Z := 1900.
Definition MAX_PAGES : nat := 5.

(** [CRIME_RE]: the alternatives of the group in the order of the pattern,
    each a stem with the endings its inner group tries, in the order the
    matcher tries them (a greedy optional ending first with, then without
    it). *)
Definition CRIME_ALTERNATIVES : list (string * list string) :=
  [ ("murder", [""]); ("assassin", ["ation"; ""]); ("shooting", [""]);
    ("robbery", [""]); ("kidnap", ["ping"; ""]); ("hijack", [""]);
    ("massacre", [""]); ("bomb", ["ing"; ""]); ("terror", ["ism"; "ist"]);
    ("serial killer", [""]); ("strangler", [""]);
    ("ripper", [""]); ("fraud", [""]); ("embezzl", ["e"; "ement"]);
    ("money laundering", [""]); ("insider trading", [""]);
    ("tax evasion", [""]); ("bribery", [""]); ("corruption", [""]);
    ("extortion", [""]); ("ponzi", [""]); ("scam", [""]);
    ("securities fraud", [""]);
    ("pyramid scheme", [""]); ("price fixing", [""]); ("racketeering", [""]);
    ("manslaughter", [""]); ("assault", [""]); ("rape", [""]);
    ("arson", [""]) ].

Definition CRIME_WORDS : list string :=
  flat_map (fun a => map (fun e => fst a ++ e) (snd a)) CRIME_ALTERNATIVES.

(** The characters up to U+00FF that [\w] matches: the digits, the letters
    and the underscore of ASCII, and the alphanumeric characters of
    U+0080..U+00FF. *)
Definition word_latin1 (c : char) : bool :=
  in_range 48 57 c || in_range 65 90 c || in_range 97 122 c
  || (code c =? 95)%N
  || (code c =? 170)%N || (code c =? 178)%N || (code c =? 179)%N
  || (code c =? 181)%N || (code c =? 185)%N || (code c =? 186)%N
  || in_range 188 190 c
  || in_range 192 214 c || in_range 216 246 c || in_range 248 255 c.

(** The characters a letter [a] of the pattern matches under [re.I]: the
    letter, its capital, and besides them U+0130 and U+0131 for i, U+212A
    for k and U+017F for s. A space matches a space only. *)
Definition ci_match (a b : char) : bool :=
  char_eqb b a
  || (in_range 65 90 b && char_eqb (code b + 32)%N a)
  || (char_eqb a "i" && (char_eqb b 304%N || char_eqb b 305%N))
  || (char_eqb a "k" && char_eqb b 8490%N)
  || (char_eqb a "s" && char_eqb b 383%N).

Definition head_char (s : string) : option char :=
  match s with
  | "" => None
  | String c _ => Some c
  end.

Section Pattern.

(** [str.isalnum] of a character from U+0100 on. *)
Variable isalnum : char -> bool.

(** The characters [\w] matches: the alphanumeric ones and the
    underscore. *)
Definition is_word (c : char) : bool :=
  if (code c <? 256)%N then word_latin1 c else isalnum c.

Definition is_word_opt (c : option char) : bool :=
  match c with
  | Some a => is_word a
  | None => false
  end.

(** [\b] between two neighbours, [None] standing for an end of the text. *)
Definition boundary (before after : option char) : bool :=
  xorb (is_word_opt before) (is_word_opt after).

(** The pattern word [w] read at the head of [s] under [re.I]: the text it
    matched, its last character and what follows. *)
Fixpoint match_word (w s : string) (last : option char)
  : option (string * option char * string) :=
  match w with
  | "" => Some ("", last, s)
  | String a w' =>
      match s with
      | "" => None
      | String b s' =>
          if ci_match a b then
            match match_word w' s' (Some b) with
            | Some (m, l, rest) => Some (String b m, l, rest)
            | None => None
            end
          else None
      end
  end.

Definition word_here (s : string) (w : string) : option string :=
  match match_word w s None with
  | Some (m, l, rest) => if boundary l (head_char rest) then Some m else None
  | None => None
  end.

Fixpoint first_word (s : string) (ws : list string) : option string :=
  match ws with
  | [] => None
  | w :: ws' =>
      match word_here s w with
      | Some m => Some m
      | None => first_word s ws'
      end
  end.

(** A match of the whole pattern starting exactly here. *)
Definition match_here (before : option char) (s : string) : option string :=
  if boundary before (head_char s) then first_word s CRIME_WORDS else None.

(** The scan of [search]: leftmost start first. *)
Fixpoint search_from (before : option char) (s : string) : option string :=
  match match_here before s with
  | Some m => Some m
  | None =>
      match s with
      | "" => None
      | String c s' => search_from (Some c) s'
      end
  end.

(** [CRIME_RE.search(text)], giving [match.group(1)]. *)
Definition CRIME_RE_search (text : string) : option string :=
  search_from None text.

End Pattern.

(** ** The accumulators *)

(** One dict of [all_rows], a field per key. *)
Record row : Type := mkrow {
  source : string;
  month : string;
  day : string;
  year_of_event : json;
  event : string;
  title : string;
  description : json;
  crime_type : string;
  country : json;
  url : json;
  latitude : json;
  longitude : json;
  extract : json;
  related_topics : string;
  topic_page_urls : string
}.

(** The dict comprehension that drops [month], [day], [latitude],
    [longitude] and [source]. *)
Record payload : Type := mkpayload {
  p_year_of_event : json;
  p_event : string;
  p_title : string;
  p_description : json;
  p_crime_type : string;
  p_country : json;
  p_url : json;
  p_extract : json;
  p_related_topics : string;
  p_topic_page_urls : string
}.

Definition payload_of (r : row) : payload :=
  mkpayload (year_of_event r) (event r) (title r) (description r)
            (crime_type r) (country r) (url r) (extract r)
            (related_topics r) (topic_page_urls r).

(** A single-entry dict [{event_text: payload}]. *)
Definition entry : Type := (string * payload)%type.

(** [events_by_date], a [defaultdict(list)]: the keys in insertion order. *)
Definition date_groups : Type := list (string * list entry).

(** [events_by_date[label].append(e)]: a missing key is created with an
    empty list first. *)
Fixpoint group_append (label : string) (e : entry) (g : date_groups)
  : date_groups :=
  match g with
  | [] => [(label, [e])]
  | (k, es) :: g' =>
      if String.eqb k label then (k, (es ++ [e])%list) :: g'
      else (k, es) :: group_append label e g'
  end.

Definition group_entries (label : string) (g : date_groups) : list entry :=
  match assoc label g with
  | Some es => es
  | None => []
  end.

(** The two accumulators, threaded through the normalizers. *)
Record acc : Type := mkacc {
  all_rows : list row;
  events_by_date : date_groups
}.

(** [rows.append(row)], then
    [events_by_date[date_label].append({event_text: payload})]. *)
Definition accept (label : string) (r : row) (a : acc) : acc :=
  mkacc (all_rows a ++ [r])%list
        (group_append label (event r, payload_of r) (events_by_date a)).

(** A method of [str] called on [v]: any other value lacks it. *)
Definition as_str (v : json) : result string :=
  match v with
  | JStr s => Ok s
  | _ => Raise AttributeError
  end.

(** [k in v]. *)
Definition py_in (k : string) (v : json) : result bool :=
  match v with
  | JObj m => Ok (match assoc k m with Some _ => true | None => false end)
  | JArr l =>
      Ok (existsb (fun x => match x with
                            | JStr s => String.eqb s k
                            | _ => false
                            end) l)
  | JStr s => Ok (containsb k s)
  | _ => Raise TypeError
  end.

(** [len(v)]. *)
Definition py_len (v : json) : result nat :=
  match v with
  | JArr l => Ok (List.length l)
  | JObj m => Ok (List.length m)
  | JStr s => Ok (String.length s)
  | _ => Raise TypeError
  end.

Section Normalizers.

(** The year, month and day [datetime.datetime.fromisoformat] reads off a
    string, [None] when it rejects the string. *)
Variable iso_fields : string -> option (Z * Z * Z).

(** [str(v)] of a value that is not a [str], as an f-string renders it. *)
Variable py_str : json -> string.

(** [s.lower()]. *)
Variable lower : string -> string.

(** [str.isalnum] of a character from U+0100 on, as [\b] reads it. *)
Variable isalnum : char -> bool.

Definition fromisoformat (s : string) : result date :=
  match iso_fields s with
  | Some (y, m, d) =>
      if valid_date y m d then Ok (mkdate y m d) else Raise ValueError
  | None => Raise ValueError
  end.

Definition format_value (v : json) : string :=
  match v with
  | JStr s => s
  | _ => py_str v
  end.

(** *** Wikidata *)

(** [item.get(name, {}).get('value', d)]. *)
Definition binding_value (item : json) (name : string) (d : json)
  : result json :=
  f <- py_get item name (JObj []) ;;
  py_get f "value" d.

(** The date step of the [try]: the parsed [dt]. *)
Definition item_date (item : json) : result date :=
  date_str <- binding_value item "date" JNull ;;
  if negb (truthy date_str) then Raise ValueError else
  ds <- as_str date_str ;;
  fromisoformat (replace_char "Z" "+00:00" ds).

(** The label step of the [try]: [event_text]. *)
Definition item_label (item : json) : result string :=
  event_text <- binding_value item "itemLabel" JNull ;;
  if negb (truthy event_text) then Raise ValueError else
  et <- as_str event_text ;;
  if prefixb "Q" et then Raise ValueError else Ok et.

(** The body of the [try] of [process_wikidata_results] up to the row and
    its date label. *)
Definition wikidata_row (item : json) : result (string * row) :=
  dt <- item_date item ;;
  et <- item_label item ;;
  country <- binding_value item "countryLabel" (JStr "") ;;
  ctv <- binding_value item "crimeTypeLabel" (JStr "crime") ;;
  crime <- as_str ctv ;;
  url <- binding_value item "article" (JStr "") ;;
  Ok (date_label (month_of dt) (day_of dt),
      mkrow "Wikidata" (fmt02 (month_of dt)) (fmt02 (day_of dt))
            (JNum (year dt)) et et (JStr "Source: Wikidata") (lower crime)
            country url (JStr "") (JStr "") (JStr "") "" "").

(** The accumulators with the two counters of the loop. *)
Record wikidata_state : Type := mkwd {
  wd_acc : acc;
  processed_count : nat;
  skipped_count : nat
}.

(** The [for item in results] loop: [ValueError] and [KeyError] skip the
    row, any other exception leaves the function. *)
Fixpoint wikidata_loop (items : list json) (st : wikidata_state)
  : result wikidata_state :=
  match items with
  | [] => Ok st
  | item :: rest =>
      match wikidata_row item with
      | Ok (label, r) =>
          wikidata_loop rest
            (mkwd (accept label r (wd_acc st))
                  (S (processed_count st)) (skipped_count st))
      | Raise ValueError | Raise KeyError =>
          wikidata_loop rest
            (mkwd (wd_acc st) (processed_count st) (S (skipped_count st)))
      | Raise e => Raise e
      end
  end.

(** [process_wikidata_results(data, rows, events_by_date)]: the
    accumulators on return and, unless the function returned at its first
    test, the two counters it prints. *)
Definition process_wikidata_results (data : json) (a : acc)
  : result (acc * option (nat * nat)) :=
  if negb (truthy data) then Ok (a, None) else
  has_results <- py_in "results" data ;;
  if negb has_results then Ok (a, None) else
  res <- py_index data "results" ;;
  has_bindings <- py_in "bindings" res ;;
  if negb has_bindings then Ok (a, None) else
  res' <- py_index data "results" ;;
  results <- py_index res' "bindings" ;;
  _ <- py_len results ;;
  items <- py_iter results ;;
  st <- wikidata_loop items (mkwd a O O) ;;
  Ok (wd_acc st, Some (processed_count st, skipped_count st)).

(** *** On this day *)

(** [f < z] for a float and an integer: Python compares the two values
    exactly; every comparison with not-a-number is false. *)
Definition float_lt_int (f : pyfloat) (z : Z) : bool :=
  match f with
  | FNaN => false
  | FInf negative => negative
  | FFin m e =>
      if 0 <=? e then m * 2 ^ e <? z else m <? z * 2 ^ (- e)
  end.

(** [event_year is None or event_year < YEAR_CUTOFF]: [None] when the test
    holds, the year otherwise. A [bool] compares as 0 or 1. *)
Definition year_check (v : json) : result (option json) :=
  match v with
  | JNull => Ok None
  | JNum z => Ok (if z <? YEAR_CUTOFF then None else Some v)
  | JBool b =>
      let z := if b then 1 else 0 in
      Ok (if z <? YEAR_CUTOFF then None else Some v)
  | JFloat f => Ok (if float_lt_int f YEAR_CUTOFF then None else Some v)
  | _ => Raise TypeError
  end.

(** [pages[a:b]]. *)
Definition py_slice (a b : nat) (v : json) : result (list json) :=
  match v with
  | JArr l => Ok (slice a b l)
  | JStr s => Ok (slice a b (chars s))
  | _ => Raise TypeError
  end.

(** [p["title"].replace("_", " ")]. *)
Definition page_title (p : json) : result string :=
  t <- py_index p "title" ;;
  s <- as_str t ;;
  Ok (replace_char "_" " " s).

(** [p.get("content_urls", {}).get("desktop", {}).get("page", "")]. *)
Definition desktop_url (p : json) : result json :=
  c <- py_get p "content_urls" (JObj []) ;;
  d <- py_get c "desktop" (JObj []) ;;
  py_get d "page" (JStr "").

(** The loop that looks for the first page with coordinates. *)
Fixpoint first_coordinates (ps : list json) : result json :=
  match ps with
  | [] => Ok (JStr "")
  | p :: ps' =>
      c <- py_get p "coordinates" JNull ;;
      if truthy c then Ok c else first_coordinates ps'
  end.

(** [coordinates.get(k, "") if isinstance(coordinates, dict) else ""]. *)
Definition coordinate (c : json) (k : string) : json :=
  match c with
  | JObj m => match assoc k m with Some v => v | None => JStr "" end
  | _ => JStr ""
  end.

(** One entry of the topic URL list. *)
Definition topic_url (p : json) : result string :=
  t <- page_title p ;;
  u <- desktop_url p ;;
  Ok (t ++ ": " ++ format_value u).

(** The body of the [for ev in ...] loop up to the row: [None] for a
    [continue]. *)
Definition onthisday_event (mm dd : string) (ev : json)
  : result (option row) :=
  text <- py_index ev "text" ;;
  match text with
  | JStr t =>
      match CRIME_RE_search isalnum t with
      | None => Ok None
      | Some g =>
          y <- py_get ev "year" JNull ;;
          yc <- year_check y ;;
          match yc with
          | None => Ok None
          | Some event_year =>
              pages <- py_get ev "pages" (JArr []) ;;
              if negb (truthy pages) then Ok None else
              first_page <- py_first pages ;;
              title <- page_title first_page ;;
              description <- py_get first_page "description" (JStr "") ;;
              url <- desktop_url first_page ;;
              extract <- py_get first_page "extract" (JStr "") ;;
              scanned <- py_slice 0 MAX_PAGES pages ;;
              coordinates <- first_coordinates scanned ;;
              related_pages <- py_slice 1 MAX_PAGES pages ;;
              topics <- mapM page_title related_pages ;;
              topic_url_list <- mapM topic_url related_pages ;;
              Ok (Some
                (mkrow "OnThisDay" mm dd event_year t title description
                       (lower g) (JStr "") url
                       (coordinate coordinates "lat")
                       (coordinate coordinates "lon")
                       extract (join ", " topics)
                       (join ", " topic_url_list)))
          end
      end
  | _ => Raise TypeError
  end.

(** The [for ev in data.get("events", [])] loop: nothing catches an
    exception of its body. *)
Fixpoint events_loop (mm dd label : string) (evs : list json) (a : acc)
  : result acc :=
  match evs with
  | [] => Ok a
  | ev :: rest =>
      o <- onthisday_event mm dd ev ;;
      match o with
      | Some r => events_loop mm dd label rest (accept label r a)
      | None => events_loop mm dd label rest a
      end
  end.

(** [datetime.date(2024, 1, 1) + datetime.timedelta(days=day - 1)]. *)
Definition day_date (day : nat) : date :=
  add_days (mkdate 2024 1 1) (day - 1).

(** One turn of the [for day in range(1, 367)] loop, for the feed [data] of
    the day; [None] when the request failed. *)
Definition onthisday_day (day : nat) (feed : option json) (a : acc)
  : result acc :=
  let dt := day_date day in
  let mm := fmt02 (month_of dt) in
  let dd := fmt02 (day_of dt) in
  let label := date_label (month_of dt) (day_of dt) in
  match feed with
  | None => Ok a
  | Some data =>
      evs <- py_get data "events" (JArr []) ;;
      items <- py_iter evs ;;
      events_loop mm dd label items a
  end.

Fixpoint days_loop (days : list nat) (feeds : nat -> option json) (a : acc)
  : result acc :=
  match days with
  | [] => Ok a
  | day :: rest =>
      a' <- onthisday_day day (feeds day) a ;;
      days_loop rest feeds a'
  end.

(** The collecting phase of [main]: [wikidata_json] is what
    [query_wikidata_crimes] returned ([JNull] for [None]), [feeds day] the
    decoded feed of a day. *)
Definition collect (wikidata_json : json) (feeds : nat -> option json)
  : result acc :=
  let a0 := mkacc [] [] in
  a1 <- (if truthy wikidata_json
         then r <- process_wikidata_results wikidata_json a0 ;; Ok (fst r)
         else Ok a0) ;;
  days_loop (seq 1 366) feeds a1.

End Normalizers.

(** ** The exporter *)

(** Stable sort by key, as [sorted] and the multi-column [sort_values]
    order equal keys. *)
Fixpoint insert_by {K A : Type} (le : K -> K -> bool) (x : K * A)
  (l : list (K * A)) : list (K * A) :=
  match l with
  | [] => [x]
  | y :: l' =>
      if le (fst x) (fst y) then x :: y :: l' else y :: insert_by le x l'
  end.

Definition sort_by {K A : Type} (le : K -> K -> bool) (l : list (K * A))
  : list (K * A) :=
  fold_right (insert_by le) [] l.

(** The order of [datetime] values, on (year, month, day). *)
Definition date_lt (a b : Z * Z * Z) : bool :=
  let '(y1, m1, d1) := a in
  let '(y2, m2, d2) := b in
  (y1 <? y2) || ((y1 =? y2) && ((m1 <? m2) || ((m1 =? m2) && (d1 <? d2)))).

Definition date_le (a b : Z * Z * Z) : bool := negb (date_lt b a).

(** A number as a float, for the order of a column. *)
Definition as_float (v : json) : option pyfloat :=
  match v with
  | JNum z => Some (FFin z 0)
  | JBool b => Some (FFin (if b then 1 else 0) 0)
  | JFloat FNaN => None
  | JFloat f => Some f
  | _ => None
  end.

Definition float_le (a b : pyfloat) : bool :=
  match a, b with
  | FNaN, _ | _, FNaN => false
  | FInf true, _ => true
  | _, FInf false => true
  | FInf false, _ => false
  | _, FInf true => false
  | FFin m1 e1, FFin m2 e2 =>
      let e := Z.min e1 e2 in
      m1 * 2 ^ (e1 - e) <=? m2 * 2 ^ (e2 - e)
  end.

(** The order of the cells of [year_of_event]: numbers by value, and
    before what is not a number. *)
Definition year_le (a b : json) : bool :=
  match as_float a, as_float b with
  | Some x, Some y => float_le x y
  | Some _, None => true
  | None, Some _ => false
  | None, None => true
  end.

(** The order of the sort columns [month], [day], [year_of_event]. *)
Definition columns_le (a b : string * string * json) : bool :=
  let '(m1, d1, y1) := a in
  let '(m2, d2, y2) := b in
  String.ltb m1 m2
  || (String.eqb m1 m2
      && (String.ltb d1 d2 || (String.eqb d1 d2 && year_le y1 y2))).

(** [fillna('')] on one cell: [None] and not-a-number are the missing
    values. *)
Definition fillna (v : json) : json :=
  match v with
  | JNull | JFloat FNaN => JStr ""
  | _ => v
  end.

Definition fillna_row (r : row) : row :=
  mkrow (source r) (month r) (day r) (fillna (year_of_event r)) (event r)
        (title r) (fillna (description r)) (crime_type r)
        (fillna (country r)) (fillna (url r)) (fillna (latitude r))
        (fillna (longitude r)) (fillna (extract r)) (related_topics r)
        (topic_page_urls r).

(** [df[column_order].fillna('').sort_values(["month", "day",
    "year_of_event"])]: the rows of the table and their order. A cell that
    is a number is kept as the row holds it, whatever type pandas gives the
    column. *)
Definition sorted_table (rows : list row) : list row :=
  map snd
    (sort_by columns_le
       (map (fun r => ((month r, day r, year_of_event r), r))
            (map fillna_row rows))).

(** What the exporter prints. *)
Inductive message : Type :=
| ExportStart
| FilesSaved (dir csv_path json_path : string)
| FoundEvents (n : nat)
| NothingToSave.

(** What the exporter does to the outside, in order. *)
Inductive effect : Type :=
| Print (m : message)
| MakeDirs (dir : string)
| WriteCsv (path : string) (table : list row)
| WriteJson (path : string) (groups : date_groups).


Section Exporter.

(** [datetime.datetime.strptime(s, "%B %d %Y")]: year, month and day of the
    result, [None] for its [ValueError]. *)
Variable strptime_B_d_Y : string -> option (Z * Z * Z).

(** The sort key of a date label. *)
Definition label_key (label : string) : result (Z * Z * Z) :=
  match strptime_B_d_Y (label ++ " 2024") with
  | Some k => Ok k
  | None => Raise ValueError
  end.

(** [dict(sorted(events_by_date.items(), key=...))]. *)
Definition sorted_events_by_date (g : date_groups) : result date_groups :=
  keyed <- mapM (fun kv => k <- label_key (fst kv) ;; Ok (k, kv)) g ;;
  Ok (map snd (sort_by date_le keyed)).

(** The export block of [main]: the effects performed, and the exception
    that ended it, if any. [timestamp] is [time.strftime("%Y%m%d_%H%M%S")]. *)
Definition export (timestamp : string) (a : acc)
  : list effect * option exn :=
  match all_rows a with
  | [] => ([Print NothingToSave], None)
  | _ :: _ =>
      let output_dir := "files" in
      let table := sorted_table (all_rows a) in
      let base_filename := "crime_anniversaries_merged_" ++ timestamp in
      let csv_path := output_dir ++ "/" ++ base_filename ++ ".csv" in
      let json_path := output_dir ++ "/" ++ base_filename ++ ".json" in
      let before :=
        [Print ExportStart; MakeDirs output_dir; WriteCsv csv_path table] in
      match sorted_events_by_date (events_by_date a) with
      | Ok g =>
          ((before ++
            [WriteJson json_path g;
             Print (FilesSaved output_dir csv_path json_path);
             Print (FoundEvents (List.length table))])%list, None)
      | Raise e => (before, Some e)
      end
  end.

End Exporter.

(** [main]: the collecting phase, then the export block. An exception of
    the collecting phase ends the run before any export. *)
Definition main (iso_fields : string -> option (Z * Z * Z))
  (py_str : json -> string) (lower : string -> string)
  (isalnum : char -> bool) (strptime_B_d_Y : string -> option (Z * Z * Z))
  (wikidata_json : json) (feeds : nat -> option json) (timestamp : string)
  : list effect * option exn :=
  match collect iso_fields py_str lower isalnum wikidata_json feeds with
  | Ok a => export strptime_B_d_Y timestamp a
  | Raise e => ([], Some e)
  end.

(** ** Library functions on the inputs of the examples *)

(** Exactly [n] decimal digits at the head of [s]. *)
Fixpoint read_digits (n : nat) (s : string) (acc : Z) : option (Z * string) :=
  match n with
  | O => Some (acc, s)
  | S n' =>
      match s with
      | String c s' =>
          if in_range 48 57 c
          then read_digits n' s' (10 * acc + (Z.of_N (code c) - 48))
          else None
      | "" => None
      end
  end.

Definition expect (c : char) (s : string) : option string :=
  match s with
  | String a s' => if char_eqb a c then Some s' else None
  | "" => None
  end.

Definition obind {A B : Type} (o : option A) (k : A -> option B) : option B :=
  match o with
  | Some a => k a
  | None => None
  end.

(** [HH:MM] with both in range. *)
Definition read_hh_mm (s : string) : option string :=
  obind (read_digits 2 s 0) (fun '(h, s1) =>
  obind (expect ":" s1) (fun s2 =>
  obind (read_digits 2 s2 0) (fun '(mi, s3) =>
  if (h <? 24) && (mi <? 60) then Some s3 else None))).

(** The ISO-8601 forms every version of [fromisoformat] reads:
    [YYYY-MM-DD], [YYYY-MM-DDTHH:MM:SS] and the latter with a [+HH:MM]
    offset. *)
Definition iso_fields_basic (s : string) : option (Z * Z * Z) :=
  obind (read_digits 4 s 0) (fun '(y, s1) =>
  obind (expect "-" s1) (fun s2 =>
  obind (read_digits 2 s2 0) (fun '(m, s3) =>
  obind (expect "-" s3) (fun s4 =>
  obind (read_digits 2 s4 0) (fun '(d, s5) =>
  match s5 with
  | "" => Some (y, m, d)
  | _ =>
      obind (expect "T" s5) (fun s6 =>
      obind (read_hh_mm s6) (fun s7 =>
      obind (expect ":" s7) (fun s8 =>
      obind (read_digits 2 s8 0) (fun '(sec, s9) =>
      if sec <? 60 then
        match s9 with
        | "" => Some (y, m, d)
        | _ =>
            obind (expect "+" s9) (fun s10 =>
            obind (read_hh_mm s10) (fun s11 =>
            match s11 with
            | "" => Some (y, m, d)
            | _ => None
            end))
        end
      else None))))
  end))))).

(** [str.lower] where only the capitals up to U+00FF, U+0130 and U+212A
    change: A-Z and U+00C0..U+00DE (the multiplication sign apart) move by
    32, U+0130 becomes an i with a combining dot, U+212A a k. *)
Fixpoint lower_basic (s : string) : string :=
  match s with
  | "" => ""
  | String c s' =>
      if in_range 65 90 c
         || (in_range 192 222 c && negb (code c =? 215)%N)
      then String (code c + 32)%N (lower_basic s')
      else if (code c =? 304)%N
      then String 105%N (String 775%N (lower_basic s'))
      else if (code c =? 8490)%N then String 107%N (lower_basic s')
      else String c (lower_basic s')
  end.

(** [str.isalnum] on the Latin Extended blocks U+0100..U+024F, all letters,
    and on the Kelvin sign U+212A. *)
Definition isalnum_basic (c : char) : bool :=
  in_range 256 591 c || (code c =? 8490)%N.

(** [str] of the scalars. *)
Definition py_str_scalar (v : json) : string :=
  match v with
  | JNull => "None"
  | JBool true => "True"
  | JBool false => "False"
  | JNum z => str_of_Z z
  | JStr s => s
  | _ => ""
  end.

Fixpoint drop_prefix (p s : string) : option string :=
  match p, s with
  | "", _ => Some s
  | String a p', String b s' =>
      if char_eqb a b then drop_prefix p' s' else None
  | String _ _, "" => None
  end.

(** One or two digits, then a space. *)
Definition read_day (s : string) : option (Z * string) :=
  match read_digits 1 s 0 with
  | Some (d1, s1) =>
      match expect " " s1 with
      | Some s2 => Some (d1, s2)
      | None =>
          obind (read_digits 1 s1 d1) (fun '(d2, s2) =>
          obind (expect " " s2) (fun s3 => Some (d2, s3)))
      end
  | None => None
  end.

Fixpoint read_month (names : list string) (m : Z) (s : string)
  : option (Z * string) :=
  match names with
  | [] => None
  | n :: names' =>
      match drop_prefix (n ++ " ") s with
      | Some rest => Some (m, rest)
      | None => read_month names' (m + 1) s
      end
  end.

(** [strptime(s, "%B %d %Y")] on a month name, one space, a day number,
    one space and a four-digit year. *)
Definition strptime_plain (s : string) : option (Z * Z * Z) :=
  obind (read_month (tl month_names) 1 s) (fun '(m, s1) =>
  obind (read_day s1) (fun '(d, s2) =>
  obind (read_digits 4 s2 0) (fun '(y, s3) =>
  match s3 with
  | "" => if valid_date y m d then Some (y, m, d) else None
  | _ => None
  end))).

(** ** Properties the theorems speak of *)

Definition entry_of (r : row) : entry := (event r, payload_of r).

(** The date label of a row, read off its [month] and [day]. *)
Definition row_label (r : row) : string :=
  match int_of_str (month r), int_of_str (day r) with
  | Some m, Some d => date_label m d
  | _, _ => ""
  end.

Definition rows_of_label (label : string) (rows : list row) : list row :=
  filter (fun r => String.eqb (row_label r) label) rows.

(** The number of entries of the map, all labels together. *)
Definition entry_count (g : date_groups) : nat :=
  List.length (List.concat (map snd g)).

(** The two accumulators hold the same records: the keys of the map are
    distinct, under every label the map lists, in order, the entries of
    the rows of that label, and the map holds as many entries as the list
    holds rows. *)
Record lockstep (a : acc) : Prop := mklockstep {
  lockstep_keys : NoDup (map fst (events_by_date a));
  lockstep_entries :
    forall label,
      group_entries label (events_by_date a)
      = map entry_of (rows_of_label label (all_rows a));
  lockstep_count :
    entry_count (events_by_date a) = List.length (all_rows a)
}.

Definition is_digit (c : char) : bool := in_range 48 57 c.

(** Exactly two characters, both decimal digits. *)
Definition two_digits (s : string) : bool :=
  match s with
  | String a (String b "") => is_digit a && is_digit b
  | _ => false
  end.

(** A month and a day of the calendar, February 29 included. *)
Definition calendar_day (m d : Z) : bool :=
  (1 <=? m) && (m <=? 12) && (1 <=? d) && (d <=? days_in_month 2024 m).

Definition valid_month_day (r : row) : bool :=
  two_digits (month r) && two_digits (day r) &&
  match int_of_str (month r), int_of_str (day r) with
  | Some m, Some d => calendar_day m d
  | _, _ => false
  end.

(** The keys of a Date Group Map: distinct labels of calendar days. *)
Definition date_labelled (g : date_groups) : Prop :=
  NoDup (map fst g)
  /\ Forall (fun kv => exists m d,
                 calendar_day m d = true /\ fst kv = date_label m d) g.

(** A month and day within their month, in whatever year. *)
Definition in_month (dt : date) : Prop :=
  1 <= month_of dt <= 12
  /\ 1 <= day_of dt <= days_in_month (year dt) (month_of dt).

(** A record and the label it is filed under, as either normalizer hands
    them to the accumulators. *)
Inductive accepted_by (iso_fields : string -> option (Z * Z * Z))
  (py_str : json -> string) (lower : string -> string)
  (isalnum : char -> bool) : string -> row -> Prop :=
| accepted_wikidata (item : json) (label : string) (r : row) :
    wikidata_row iso_fields lower item = Ok (label, r) ->
    accepted_by iso_fields py_str lower isalnum label r
| accepted_onthisday (day : nat) (ev : json) (r : row) :
    onthisday_event py_str lower isalnum (fmt02 (month_of (day_date day)))
                    (fmt02 (day_of (day_date day))) ev = Ok (Some r) ->
    accepted_by iso_fields py_str lower isalnum
      (date_label (month_of (day_date day)) (day_of (day_date day))) r.

(** One batch handed to a normalizer: a Wikidata response, or the feed of
    one day. *)
Inductive batch : Type :=
| WikidataBatch (data : json)
| OnThisDayBatch (day : nat) (feed : option json).

(** The accumulators after a batch. *)
Definition normalize (iso_fields : string -> option (Z * Z * Z))
  (py_str : json -> string) (lower : string -> string)
  (isalnum : char -> bool) (b : batch) (a : acc) : result acc :=
  match b with
  | WikidataBatch data =>
      out <- process_wikidata_results iso_fields lower data a ;; Ok (fst out)
  | OnThisDayBatch day feed => onthisday_day py_str lower isalnum day feed a
  end.

(** The spec's words for an unresolved label: a token starting with the
    letter Q followed by digits. *)
Fixpoint all_digits (s : string) : bool :=
  match s with
  | "" => true
  | String c s' => is_digit c && all_digits s'
  end.

Definition spec_entity_id (s : string) : bool :=
  match s with
  | String c rest =>
      char_eqb c "Q" && negb (String.eqb rest "") && all_digits rest
  | "" => false
  end.

(** A field of a row as the query service sends it: absent, or an object
    whose [value], if any, is a string. *)
Definition typed_binding (item : json) (name : string) : bool :=
  match item with
  | JObj m =>
      match assoc name m with
      | None => true
      | Some (JObj f) =>
          match assoc "value" f with
          | None | Some (JStr _) => true
          | Some _ => false
          end
      | Some _ => false
      end
  | _ => false
  end.

Definition typed_row (item : json) : bool :=
  forallb (typed_binding item)
          ["date"; "itemLabel"; "countryLabel"; "crimeTypeLabel"; "article"].

Fixpoint last_char (s : string) : option char :=
  match s with
  | "" => None
  | String c s' =>
      match s' with
      | "" => Some c
      | _ => last_char s'
      end
  end.

(** The text [m] is the word [w] of the pattern as [re.I] reads it:
    character by character, each one that the letter of [w] matches. *)
Fixpoint ci_equal (w m : string) : bool :=
  match w, m with
  | "", "" => true
  | String a w', String b m' => ci_match a b && ci_equal w' m'
  | _, _ => false
  end.

(** In the text [pre ++ m ++ post], [m] is a word of the pattern as [re.I]
    reads it, with a word boundary on either side. *)
Definition keyword_at (isalnum : char -> bool) (pre m post : string) : Prop :=
  (exists w, In w CRIME_WORDS /\ ci_equal w m = true)
  /\ boundary isalnum (last_char pre) (head_char (m ++ post)) = true
  /\ boundary isalnum (last_char m) (head_char post) = true.

(** The four letters from U+0100 on that [re.I] lets a letter of the
    pattern match: U+0130, U+0131, U+017F and U+212A. *)
Definition special_letter (c : char) : bool :=
  (code c =? 304)%N || (code c =? 305)%N || (code c =? 383)%N
  || (code c =? 8490)%N.

(** A text that holds none of them. *)
Fixpoint plain_text (s : string) : bool :=
  match s with
  | "" => true
  | String c s' => negb (special_letter c) && plain_text s'
  end.

Fixpoint ascii_text (s : string) : bool :=
  match s with
  | "" => true
  | String c s' => (code c <? 128)%N && ascii_text s'
  end.

(** [str.lower] on a text of ASCII characters. *)
Fixpoint lower_ascii (s : string) : string :=
  match s with
  | "" => ""
  | String c s' =>
      String (if in_range 65 90 c then (code c + 32)%N else c)
             (lower_ascii s')
  end.

(** The characters the words of the pattern are written with: a-z and the
    space. *)
Definition pattern_letter (c : char) : bool :=
  in_range 97 122 c || (code c =? 32)%N.

Fixpoint pattern_word (w : string) : bool :=
  match w with
  | "" => true
  | String c w' => pattern_letter c && pattern_word w'
  end.

(** A page of a feed as the loop can read it: an object with a string
    [title] whose [content_urls], and the [desktop] of it, are objects when
    present. *)
Definition page_ok (p : json) : bool :=
  match p with
  | JObj m =>
      match assoc "title" m with
      | Some (JStr _) => true
      | _ => false
      end
      && match assoc "content_urls" m with
         | None => true
         | Some (JObj c) =>
             match assoc "desktop" c with
             | None | Some (JObj _) => true
             | Some _ => false
             end
         | Some _ => false
         end
  | _ => false
  end.

(** The order of the calendar on (month, day) pairs. *)
Definition md_lt (a b : Z * Z) : bool :=
  (fst a <? fst b) || ((fst a =? fst b) && (snd a <? snd b)).

(** A key of the sort with the item it belongs to: the day of the label of
    the item, in 2024. *)
Definition keyed_ok (kk : (Z * Z * Z) * (string * list entry)) : Prop :=
  exists m d,
    calendar_day m d = true
    /\ fst kk = (2024, m, d) /\ fst (snd kk) = date_label m d.

(** ** Sample inputs *)

Definition binding (v : string) : json :=
  JObj [("type", JStr "literal"); ("value", JStr v)].

(** A Wikidata row dated before the cutoff. *)
Definition row_1850 : json :=
  JObj [("itemLabel", binding "Astor Place shooting");
        ("date", binding "1850-06-15T00:00:00Z");
        ("crimeTypeLabel", binding "Mass murder");
        ("countryLabel", binding "United States")].

(** A Wikidata row whose label is resolved text beginning with Q. *)
Definition row_quebec : json :=
  JObj [("itemLabel", binding "Quebec shooting");
        ("date", binding "2017-01-29T00:00:00Z");
        ("crimeTypeLabel", binding "Mass murder")].

(** A Wikidata row whose label was not resolved. *)
Definition row_unresolved : json :=
  JObj [("itemLabel", binding "Q12345");
        ("date", binding "1995-03-20T00:00:00Z")].

(** A Wikidata row with a date that does not parse. *)
Definition row_bad_date : json :=
  JObj [("itemLabel", binding "Tokyo subway attack");
        ("date", binding "March 1995")].

Definition row_1995 : json :=
  JObj [("itemLabel", binding "Tokyo subway attack");
        ("date", binding "1995-03-20T00:00:00Z");
        ("crimeTypeLabel", binding "Terrorism");
        ("article",
         binding "https://en.wikipedia.org/wiki/Tokyo_subway_sarin_attack")].

(** A Wikidata row with a label and a date only. *)
Definition row_unlabelled_crime : json :=
  JObj [("itemLabel", binding "Dunblane massacre");
        ("date", binding "1996-03-13T00:00:00Z")].

(** The row the normalizer builds of [row_unlabelled_crime]. *)
Definition row_dunblane : row :=
  mkrow "Wikidata" "03" "13" (JNum 1996) "Dunblane massacre"
        "Dunblane massacre"
        (JStr "Source: Wikidata") "crime" (JStr "") (JStr "")
        (JStr "") (JStr "") (JStr "") "" "".

(** A row whose date is a string where the service sends an object, and a
    response that holds it. *)
Definition row_date_text : json :=
  JObj [("date", JStr "1995-03-20T00:00:00Z");
        ("itemLabel", binding "Tokyo subway sarin attack")].

Definition wikidata_malformed : json :=
  JObj [("results", JObj [("bindings", JArr [row_1995; row_date_text])])].

Definition wikidata_sample : json :=
  JObj [("results",
         JObj [("bindings",
                JArr [row_1850; row_quebec; row_unresolved; row_bad_date;
                      row_1995])])].

Definition page (title : string) (more : list (string * json)) : json :=
  JObj (("title", JStr title) :: more).

Definition desktop (u : string) : string * json :=
  ("content_urls", JObj [("desktop", JObj [("page", JStr u)])]).

Definition pages_sample : list json :=
  [ page "Oklahoma_City_bombing"
      [("description", JStr "1995 attack");
       desktop "https://en.wikipedia.org/wiki/Oklahoma_City_bombing"];
    page "Alfred_P._Murrah_Federal_Building"
      [("coordinates", JObj [("lat", JNum 35); ("lon", JNum (-97))])];
    page "Oklahoma_City"
      [desktop "https://en.wikipedia.org/wiki/Oklahoma_City"];
    page "Timothy_McVeigh" [];
    page "Terry_Nichols" [];
    page "United_States" [] ].

(** An event of a daily feed whose first keyword is bombing. *)
Definition ev_bombing : json :=
  JObj [("text", JStr "Oklahoma City bombing: a truck bomb kills 168 people");
        ("year", JNum 1995);
        ("pages", JArr pages_sample)].

(** The row the loop of April 19 builds of [ev_bombing]. *)
Definition row_bombing : row :=
  mkrow "OnThisDay" "04" "19" (JNum 1995)
        "Oklahoma City bombing: a truck bomb kills 168 people"
        "Oklahoma City bombing" (JStr "1995 attack") "bombing" (JStr "")
        (JStr "https://en.wikipedia.org/wiki/Oklahoma_City_bombing")
        (JNum 35) (JNum (-97)) (JStr "")
        "Alfred P. Murrah Federal Building, Oklahoma City, Timothy McVeigh, Terry Nichols"
        "Alfred P. Murrah Federal Building: , Oklahoma City: https://en.wikipedia.org/wiki/Oklahoma_City, Timothy McVeigh: , Terry Nichols: ".

(** An event whose text holds the word bombing after another keyword. *)
Definition ev_terrorist_bombing : json :=
  JObj [("text", JStr "A terrorist bombing destroys a federal building");
        ("year", JNum 1995);
        ("pages", JArr [page "Federal_building" []])].

(** An event whose text holds bombing inside a longer word only. *)
Definition ev_firebombing : json :=
  JObj [("text", JStr "The firebombing of the city begins");
        ("year", JNum 1995);
        ("pages", JArr [page "City" []])].

(** An event without its descriptive text. *)
Definition ev_no_text : json :=
  JObj [("year", JNum 1995); ("pages", JArr [page "City" []])].

(** An event whose first page has no title. *)
Definition ev_no_title : json :=
  JObj [("text", JStr "A bombing in the city");
        ("year", JNum 1995);
        ("pages", JArr [JObj [("description", JStr "a city")]])].

(** An event whose year is the float 1995.5, and one whose year is
    not-a-number. *)
Definition ev_year_fraction : json :=
  JObj [("text", JStr "A bombing in the city");
        ("year", JFloat (FFin 3991 (-1)));
        ("pages", JArr [page "City" []])].

Definition ev_year_nan : json :=
  JObj [("text", JStr "A bombing in the city");
        ("year", JFloat FNaN);
        ("pages", JArr [page "City" []])].

(** An event whose text writes a keyword with the long s of U+017F. *)
Definition ev_long_s : json :=
  JObj [("text", JStr "An aſſault on the king");
        ("year", JNum 1901);
        ("pages", JArr [page "King" []])].


Definition feed_sample : json :=
  JObj [("events", JArr [ev_bombing; ev_firebombing; ev_terrorist_bombing])].

(** The feeds of a run: day 110 (April 19) answers, the other days fail. *)
Definition feeds_sample (day : nat) : option json :=
  if Nat.eqb day 110 then Some feed_sample else None.

(** The accumulators of a run on the sample inputs. *)
Definition acc_sample : acc :=
  match collect iso_fields_basic py_str_scalar lower_basic isalnum_basic
                wikidata_sample feeds_sample with
  | Ok a => a
  | Raise _ => mkacc [] []
  end.

(** ** Further properties *)

(** The rows a batch of Wikidata rows adds, in the order of the batch. *)
Definition wikidata_rows (iso_fields : string -> option (Z * Z * Z))
  (lower : string -> string) (items : list json) : list row :=
  flat_map (fun item => match wikidata_row iso_fields lower item with
                        | Ok (_, r) => [r]
                        | Raise _ => []
                        end) items.

(** A date value the date step turns down: absent, empty, not read by
    [fromisoformat], or read to a date that does not exist. *)
Definition bad_date (iso_fields : string -> option (Z * Z * Z)) (v : json)
  : Prop :=
  v = JNull \/ v = JStr ""
  \/ exists s,
       v = JStr s
       /\ match iso_fields (replace_char "Z" "+00:00" s) with
          | Some (y, m, d) => valid_date y m d = false
          | None => True
          end.

Definition is_object (v : json) : bool :=
  match v with
  | JObj _ => true
  | _ => false
  end.

(** [a'] extends [a]: the flat list and the keys of the map have grown at
    their ends, and so has the list of every label. *)
Definition extends (a a' : acc) : Prop :=
  (exists rows, all_rows a' = (all_rows a ++ rows)%list)
  /\ (exists keys,
        map fst (events_by_date a')
        = (map fst (events_by_date a) ++ keys)%list)
  /\ forall label,
       exists es,
         group_entries label (events_by_date a')
         = (group_entries label (events_by_date a) ++ es)%list.

(** A page without coordinates the scan can use. *)
Definition no_coordinates (p : json) : Prop :=
  exists c, py_get p "coordinates" JNull = Ok c /\ truthy c = false.

(** An event object with its [pages] set to the list [P]. *)
Definition with_pages (m : list (string * json)) (P : list json) : json :=
  JObj (("pages", JArr P) :: m).

(** The number of the day (m, d) in the year 2024, January 1 being day 1. *)
Definition day_of_year (m d : Z) : nat :=
  Z.to_nat
    (fold_right Z.add 0
       (map (fun i => days_in_month 2024 (Z.of_nat i))
            (seq 1 (Z.to_nat m - 1)))
     + d).

(** * Proofs *)

(** ** Equality of characters and strings *)

Lemma char_eqb_eq (a b : char) : char_eqb a b = true <-> a = b.
Proof.
  apply N.eqb_eq.
Qed.

Lemma char_eqb_refl (a : char) : char_eqb a a = true.
Proof.
  apply N.eqb_refl.
Qed.

Lemma char_eqb_sym (a b : char) : char_eqb a b = char_eqb b a.
Proof.
  apply N.eqb_sym.
Qed.

Lemma string_eqb_eq (a b : string) : String.eqb a b = true <-> a = b.
Proof.
  revert b. induction a as [|x a IH]; intros [|y b]; simpl;
    try (split; [discriminate | discriminate]); [tauto|].
  rewrite andb_true_iff, char_eqb_eq, IH.
  split; [intros [-> ->]; reflexivity | intros E; injection E; auto].
Qed.

Lemma string_eqb_refl (a : string) : String.eqb a a = true.
Proof.
  now apply string_eqb_eq.
Qed.

Lemma string_eqb_neq (a b : string) : String.eqb a b = false <-> a <> b.
Proof.
  rewrite <- string_eqb_eq. destruct (String.eqb a b); split;
    congruence.
Qed.

Lemma string_eqb_sym (a b : string) : String.eqb a b = String.eqb b a.
Proof.
  destruct (String.eqb a b) eqn:E.
  - apply string_eqb_eq in E. subst. now rewrite string_eqb_refl.
  - destruct (String.eqb b a) eqn:E'; [|reflexivity].
    apply string_eqb_eq in E'. subst. now rewrite string_eqb_refl in E.
Qed.

Lemma string_dec (a b : string) : {a = b} + {a <> b}.
Proof.
  destruct (String.eqb a b) eqn:E.
  - left. now apply string_eqb_eq.
  - right. now apply string_eqb_neq.
Defined.

(** ** The result monad *)

Lemma bind_Ok {A B : Type} (m : result A) (k : A -> result B) (b : B) :
  bind m k = Ok b -> exists a, m = Ok a /\ k a = Ok b.
Proof.
  destruct m as [a|e]; simpl; intros H; [eauto | discriminate].
Qed.

(** Splits a successful chain of binds and tests into its steps. *)
Ltac ok_inv H :=
  repeat match type of H with
  | bind ?m _ = Ok _ =>
      let x := fresh "x" in
      let Hx := fresh "E" in
      apply bind_Ok in H; destruct H as [x [Hx H]]
  | (if ?c then _ else _) = Ok _ =>
      let Hc := fresh "C" in
      destruct c eqn:Hc; [try discriminate H | try discriminate H]
  | Raise _ = Ok _ => discriminate H
  | Ok _ = Ok _ => injection H as H
  end.

(** ** Two-digit fields *)

Lemma upto_100 (P : nat -> bool) :
  forallb P (seq 0 100) = true ->
  forall z, 0 <= z < 100 -> P (Z.to_nat z) = true.
Proof.
  intros H z Hz. rewrite forallb_forall in H. apply H.
  apply in_seq. lia.
Qed.

Lemma fmt02_two_digits (z : Z) :
  0 <= z < 100 -> two_digits (fmt02 z) = true.
Proof.
  intros Hz.
  pose proof (upto_100 (fun n => two_digits (fmt02 (Z.of_nat n)))
                eq_refl z Hz) as H.
  simpl in H. rewrite Z2Nat.id in H by lia. exact H.
Qed.

Lemma int_of_fmt02 (z : Z) :
  0 <= z < 100 -> int_of_str (fmt02 z) = Some z.
Proof.
  intros Hz.
  pose proof (upto_100
    (fun n => match int_of_str (fmt02 (Z.of_nat n)) with
              | Some k => k =? Z.of_nat n
              | None => false
              end) eq_refl z Hz) as H.
  simpl in H. rewrite Z2Nat.id in H by lia.
  destruct (int_of_str (fmt02 z)); [|discriminate].
  apply Z.eqb_eq in H. now subst.
Qed.

Lemma days_in_month_le_31 (y m : Z) : 28 <= days_in_month y m <= 31.
Proof.
  unfold days_in_month.
  destruct (m =? 2); [destruct (is_leap y); lia|].
  destruct ((m =? 4) || (m =? 6) || (m =? 9) || (m =? 11)); lia.
Qed.

Lemma days_in_month_2024 (y m : Z) : days_in_month y m <= days_in_month 2024 m.
Proof.
  unfold days_in_month.
  destruct (m =? 2).
  - change (is_leap 2024) with true. destruct (is_leap y); lia.
  - lia.
Qed.

Lemma in_month_calendar_day (dt : date) :
  in_month dt -> calendar_day (month_of dt) (day_of dt) = true.
Proof.
  intros [Hm Hd]. unfold calendar_day.
  pose proof (days_in_month_2024 (year dt) (month_of dt)).
  repeat (apply andb_true_intro; split); apply Z.leb_le; lia.
Qed.

Lemma valid_date_in_month (y m d : Z) :
  valid_date y m d = true -> in_month (mkdate y m d).
Proof.
  unfold valid_date, in_month. simpl. intros H.
  repeat (apply andb_prop in H; destruct H as [H ?]).
  repeat match goal with
         | H : (_ <=? _) = true |- _ => apply Z.leb_le in H
         end.
  lia.
Qed.

Lemma next_day_in_month (dt : date) : in_month dt -> in_month (next_day dt).
Proof.
  intros [Hm Hd]. unfold next_day, in_month.
  destruct (day_of dt <? days_in_month (year dt) (month_of dt)) eqn:E.
  - apply Z.ltb_lt in E. simpl. lia.
  - destruct (month_of dt <? 12) eqn:E2; simpl.
    + apply Z.ltb_lt in E2.
      pose proof (days_in_month_le_31 (year dt) (month_of dt + 1)). lia.
    + pose proof (days_in_month_le_31 (year dt + 1) 1). lia.
Qed.

Lemma add_days_in_month (dt : date) (n : nat) :
  in_month dt -> in_month (add_days dt n).
Proof.
  intros H. induction n as [|n IH]; simpl; [exact H|].
  now apply next_day_in_month.
Qed.

Lemma day_date_in_month (day : nat) : in_month (day_date day).
Proof.
  unfold day_date. apply add_days_in_month.
  unfold in_month. simpl. change (days_in_month 2024 1) with 31. lia.
Qed.

Lemma calendar_day_bounds (m d : Z) :
  calendar_day m d = true -> 1 <= m <= 12 /\ 1 <= d <= 31.
Proof.
  unfold calendar_day. intros H.
  repeat (apply andb_prop in H; destruct H as [H ?]).
  repeat match goal with
         | H : (_ <=? _) = true |- _ => apply Z.leb_le in H
         end.
  pose proof (days_in_month_le_31 2024 m). lia.
Qed.

(** The month and day fields of a row built from a calendar day. *)
Lemma fields_of_calendar_day (m d : Z) (r : row) :
  calendar_day m d = true ->
  month r = fmt02 m -> day r = fmt02 d ->
  valid_month_day r = true /\ row_label r = date_label m d.
Proof.
  intros Hc Hm Hd. destruct (calendar_day_bounds m d Hc) as [Bm Bd].
  unfold valid_month_day, row_label. rewrite Hm, Hd.
  rewrite !fmt02_two_digits, !int_of_fmt02 by lia.
  rewrite Hc. auto.
Qed.

(** ** The two accumulators *)

Lemma group_append_keys (label : string) (e : entry) (g : date_groups) :
  map fst (group_append label e g)
  = if in_dec string_dec label (map fst g) then map fst g
    else (map fst g ++ [label])%list.
Proof.
  induction g as [|[k es] g IH]; simpl; [reflexivity|].
  destruct (String.eqb k label) eqn:E.
  - apply string_eqb_eq in E. subst k. simpl.
    destruct (string_dec label label); [reflexivity | congruence].
  - apply string_eqb_neq in E. simpl. rewrite IH.
    destruct (string_dec k label); [congruence|].
    destruct (in_dec string_dec label (map fst g)); reflexivity.
Qed.

Lemma group_append_NoDup (label : string) (e : entry) (g : date_groups) :
  NoDup (map fst g) -> NoDup (map fst (group_append label e g)).
Proof.
  intros H. rewrite group_append_keys.
  destruct (in_dec string_dec label (map fst g)) as [i|n]; [exact H|].
  apply NoDup_app; [exact H | repeat constructor; simpl; tauto |].
  intros x Hx [<-|[]]. contradiction.
Qed.

Lemma group_append_entries (label label' : string) (e : entry)
  (g : date_groups) :
  group_entries label' (group_append label e g)
  = if String.eqb label label' then (group_entries label' g ++ [e])%list
    else group_entries label' g.
Proof.
  unfold group_entries.
  induction g as [|[k es] g IH]; simpl.
  - rewrite (string_eqb_sym label' label).
    destruct (String.eqb label label'); reflexivity.
  - destruct (String.eqb k label) eqn:E; simpl.
    + apply string_eqb_eq in E. subst k.
      rewrite (string_eqb_sym label' label).
      destruct (String.eqb label label'); reflexivity.
    + destruct (String.eqb label' k) eqn:E2; [|exact IH].
      apply string_eqb_eq in E2. subst k.
      rewrite string_eqb_sym, E. reflexivity.
Qed.

Lemma rows_of_label_app (label : string) (rows : list row) (r : row) :
  rows_of_label label (rows ++ [r])
  = (rows_of_label label rows
     ++ (if String.eqb (row_label r) label then [r] else []))%list.
Proof.
  unfold rows_of_label. rewrite filter_app. reflexivity.
Qed.

Lemma group_append_count (label : string) (e : entry) (g : date_groups) :
  entry_count (group_append label e g) = S (entry_count g).
Proof.
  unfold entry_count. induction g as [|[k es] g IH]; simpl; [reflexivity|].
  destruct (String.eqb k label); simpl.
  - rewrite !length_app. simpl. lia.
  - rewrite !length_app, IH. lia.
Qed.

(** Appending a record under its own label keeps the accumulators in
    lockstep. *)
Lemma lockstep_accept (label : string) (r : row) (a : acc) :
  row_label r = label -> lockstep a -> lockstep (accept label r a).
Proof.
  intros Hl [Hk He Hc]. split; simpl.
  - now apply group_append_NoDup.
  - intros label'. rewrite group_append_entries, rows_of_label_app, He, Hl.
    destruct (String.eqb label label').
    + rewrite map_app. reflexivity.
    + rewrite app_nil_r. reflexivity.
  - rewrite group_append_count, length_app, Hc. simpl. lia.
Qed.

Lemma lockstep_empty : lockstep (mkacc [] []).
Proof.
  split; simpl; [constructor | reflexivity | reflexivity].
Qed.

(** Appending under the label of a calendar day keeps the keys of the map
    such labels. *)
Lemma date_labelled_accept (label : string) (r : row) (a : acc) :
  (exists m d, calendar_day m d = true /\ label = date_label m d) ->
  date_labelled (events_by_date a) ->
  date_labelled (events_by_date (accept label r a)).
Proof.
  intros Hl [Hk Hf]. split; simpl.
  - now apply group_append_NoDup.
  - clear Hk. induction (events_by_date a) as [|[k es] g IH]; simpl.
    + constructor; [exact Hl | constructor].
    + inversion Hf; subst.
      destruct (String.eqb k label); constructor; auto.
Qed.

(** ** What the normalizers accept *)

Section NormalizerProofs.

Variable iso_fields : string -> option (Z * Z * Z).
Variable py_str : json -> string.
Variable lower : string -> string.
Variable isalnum : char -> bool.

Local Abbreviation accepted := (accepted_by iso_fields py_str lower isalnum).

Section Invariant.

(** A property of the accumulators that every accepted record keeps. *)
Variable I : acc -> Prop.
Hypothesis I_accept :
  forall label r a, accepted label r -> I a -> I (accept label r a).

Lemma wikidata_loop_inv (items : list json) (st st' : wikidata_state) :
  I (wd_acc st) ->
  wikidata_loop iso_fields lower items st = Ok st' -> I (wd_acc st').
Proof.
  revert st. induction items as [|item rest IH]; simpl; intros st Hst H.
  - now injection H as <-.
  - destruct (wikidata_row iso_fields lower item) as [[label r]|e] eqn:E.
    + apply IH in H; [exact H|]. simpl.
      apply I_accept; [|exact Hst]. econstructor; exact E.
    + destruct e; try discriminate; apply IH in H; auto.
Qed.

Lemma process_wikidata_results_inv (data : json) (a : acc)
  (out : acc * option (nat * nat)) :
  I a ->
  process_wikidata_results iso_fields lower data a = Ok out ->
  I (fst out).
Proof.
  intros Ha H. unfold process_wikidata_results in H.
  ok_inv H; subst; simpl; auto.
  eapply wikidata_loop_inv; [|eassumption]. exact Ha.
Qed.

Lemma events_loop_inv (day : nat) (evs : list json) (a a' : acc) :
  I a ->
  events_loop py_str lower isalnum (fmt02 (month_of (day_date day)))
              (fmt02 (day_of (day_date day)))
              (date_label (month_of (day_date day)) (day_of (day_date day)))
              evs a = Ok a' ->
  I a'.
Proof.
  revert a. induction evs as [|ev rest IH]; simpl; intros a Ha H.
  - now injection H as <-.
  - apply bind_Ok in H. destruct H as [o [E H]].
    destruct o as [r|]; apply IH in H; auto.
    apply I_accept; [|exact Ha]. econstructor; exact E.
Qed.

Lemma onthisday_day_inv (day : nat) (feed : option json) (a a' : acc) :
  I a -> onthisday_day py_str lower isalnum day feed a = Ok a' -> I a'.
Proof.
  intros Ha H. unfold onthisday_day in H.
  destruct feed as [data|]; [|now injection H as <-].
  ok_inv H. eapply events_loop_inv; eassumption.
Qed.

Lemma days_loop_inv (days : list nat) (feeds : nat -> option json)
  (a a' : acc) :
  I a -> days_loop py_str lower isalnum days feeds a = Ok a' -> I a'.
Proof.
  revert a. induction days as [|day rest IH]; simpl; intros a Ha H.
  - now injection H as <-.
  - apply bind_Ok in H. destruct H as [a1 [E H]].
    apply IH in H; [exact H|]. eapply onthisday_day_inv; eassumption.
Qed.

Lemma collect_inv (wikidata_json : json) (feeds : nat -> option json)
  (a : acc) :
  I (mkacc [] []) ->
  collect iso_fields py_str lower isalnum wikidata_json feeds = Ok a -> I a.
Proof.
  intros H0 H. unfold collect in H.
  apply bind_Ok in H. destruct H as [a1 [E H]].
  eapply days_loop_inv; [|exact H].
  destruct (truthy wikidata_json); [|now injection E as <-].
  ok_inv E. subst a1.
  eapply process_wikidata_results_inv; eassumption.
Qed.

End Invariant.

(** What a row accepted from Wikidata looks like. *)
Lemma wikidata_row_Ok (item : json) (label : string) (r : row) :
  wikidata_row iso_fields lower item = Ok (label, r) ->
  exists dt,
    item_date iso_fields item = Ok dt
    /\ valid_date (year dt) (month_of dt) (day_of dt) = true
    /\ label = date_label (month_of dt) (day_of dt)
    /\ source r = "Wikidata"
    /\ month r = fmt02 (month_of dt) /\ day r = fmt02 (day_of dt)
    /\ year_of_event r = JNum (year dt).
Proof.
  intros H. unfold wikidata_row in H. ok_inv H.
  subst label r. exists x. simpl.
  repeat split; auto.
  unfold item_date in E. ok_inv E.
  unfold fromisoformat in E.
  destruct (iso_fields _) as [[[y m] d]|]; [|discriminate].
  destruct (valid_date y m d) eqn:V; [|discriminate].
  injection E as <-. exact V.
Qed.

(** The years that pass the test of the cutoff. *)
Lemma year_check_Some (y v : json) :
  year_check y = Ok (Some v) ->
  v = y
  /\ ((exists z, y = JNum z /\ YEAR_CUTOFF <= z)
      \/ (exists f, y = JFloat f /\ float_lt_int f YEAR_CUTOFF = false)).
Proof.
  unfold year_check. destruct y as [|b|z|f| | |]; try discriminate.
  - destruct b; discriminate.
  - destruct (z <? YEAR_CUTOFF) eqn:L; [discriminate|].
    intros H. injection H as <-. apply Z.ltb_ge in L. eauto.
  - destruct (float_lt_int f YEAR_CUTOFF) eqn:L; [discriminate|].
    intros H. injection H as <-. eauto.
Qed.

(** What a row accepted from a daily feed looks like. *)
Lemma onthisday_event_Ok (mm dd : string) (ev : json) (r : row) :
  onthisday_event py_str lower isalnum mm dd ev = Ok (Some r) ->
  source r = "OnThisDay" /\ month r = mm /\ day r = dd
  /\ (py_get ev "year" JNull = Ok (year_of_event r)
      /\ year_check (year_of_event r) = Ok (Some (year_of_event r)))
  /\ exists t g,
       py_index ev "text" = Ok (JStr t)
       /\ CRIME_RE_search isalnum t = Some g
       /\ event r = t /\ crime_type r = lower g.
Proof.
  intros H. unfold onthisday_event in H.
  apply bind_Ok in H. destruct H as [text [Et H]].
  destruct text as [| | | |t| |]; try discriminate.
  destruct (CRIME_RE_search isalnum t) as [g|] eqn:Eg; [|discriminate].
  apply bind_Ok in H. destruct H as [y [Ey H]].
  apply bind_Ok in H. destruct H as [yc [Eyc H]].
  destruct yc as [event_year|]; [|discriminate].
  ok_inv H. subst r. simpl.
  do 3 (split; [reflexivity|]). split; [|eauto 8].
  destruct (year_check_Some _ _ Eyc) as [-> _]. auto.
Qed.

(** Every accepted record is filed under the label of its own month and
    day, which are two digits each and name a day of the calendar. *)
Lemma accepted_fields (label : string) (r : row) :
  accepted label r ->
  valid_month_day r = true /\ row_label r = label
  /\ exists m d, calendar_day m d = true /\ label = date_label m d.
Proof.
  intros H. destruct H as [item label r H | day ev r H].
  - apply wikidata_row_Ok in H.
    destruct H as [dt [_ [V [-> [_ [Hm [Hd _]]]]]]].
    assert (C : calendar_day (month_of dt) (day_of dt) = true).
    { apply in_month_calendar_day.
      apply (valid_date_in_month _ _ _) in V. exact V. }
    destruct (fields_of_calendar_day _ _ r C Hm Hd). eauto 6.
  - apply onthisday_event_Ok in H. destruct H as [_ [Hm [Hd _]]].
    pose proof (in_month_calendar_day _ (day_date_in_month day)) as C.
    destruct (fields_of_calendar_day _ _ r C Hm Hd). eauto 6.
Qed.

End NormalizerProofs.

(** ** Evaluation on the sample inputs *)

Example search_bombing :
  CRIME_RE_search isalnum_basic "Oklahoma City Bombing: a truck bomb explodes"
    = Some "Bombing".
Proof. reflexivity. Qed.

Example search_firebombing :
  CRIME_RE_search isalnum_basic "The firebombing of the city begins" = None.
Proof. reflexivity. Qed.

Example search_embezzlement :
  CRIME_RE_search isalnum_basic "charged with embezzlement and fraud"
    = Some "embezzlement".
Proof. reflexivity. Qed.

(** The pattern on letters from U+0100 on: the long s of U+017F stands for
    an s and the dotted capital of U+0130 for an i, and the match
    lowercased is then no word of the pattern. *)
Example search_long_s :
  CRIME_RE_search isalnum_basic "An aſſault on the king" = Some "aſſault"
  /\ lower_basic "aſſault" = "aſſault"
  /\ ~ In "aſſault" CRIME_WORDS
  /\ CRIME_RE_search isalnum_basic "Gunmen hİjack a plane" = Some "hİjack"
  /\ CRIME_RE_search isalnum_basic (lower_basic "Gunmen hİjack a plane")
     = None.
Proof.
  split; [vm_compute; reflexivity|]. split; [vm_compute; reflexivity|].
  split; [|split; vm_compute; reflexivity].
  intros H. vm_compute in H. repeat (destruct H as [H|H]; [discriminate|]).
  exact H.
Qed.

Example ev_long_s_row :
  exists r,
    onthisday_event py_str_scalar lower_basic isalnum_basic "03" "30"
                    ev_long_s
    = Ok (Some r)
    /\ crime_type r = "aſſault" /\ year_of_event r = JNum 1901.
Proof. eexists. split; [vm_compute; reflexivity | split; reflexivity]. Qed.

Example day_date_feb29 :
  day_date 60 = mkdate 2024 2 29 /\ day_date 366 = mkdate 2024 12 31
  /\ day_date 110 = mkdate 2024 4 19.
Proof. repeat split. Qed.

Example fmt02_ex :
  fmt02 3 = "03" /\ fmt02 12 = "12" /\ date_label 3 5 = "March 5".
Proof. repeat split. Qed.

Example iso_fields_basic_ex :
  iso_fields_basic "1850-06-15T00:00:00+00:00" = Some (1850, 6, 15)
  /\ iso_fields_basic "March 1995" = None
  /\ fromisoformat iso_fields_basic "2023-02-29T00:00:00+00:00"
     = Raise ValueError.
Proof. repeat split. Qed.

Example wikidata_sample_counts :
  exists a,
    process_wikidata_results iso_fields_basic lower_basic wikidata_sample
      (mkacc [] [])
    = Ok (a, Some (2%nat, 3%nat))
    /\ map event (all_rows a) = ["Astor Place shooting"; "Tokyo subway attack"]
    /\ map fst (events_by_date a) = ["June 15"; "March 20"].
Proof. eexists. split; [vm_compute; reflexivity | split; reflexivity]. Qed.

Example ev_bombing_row :
  exists r,
    onthisday_event py_str_scalar lower_basic isalnum_basic "04" "19" ev_bombing
      = Ok (Some r)
    /\ crime_type r = "bombing" /\ title r = "Oklahoma City bombing"
    /\ latitude r = JNum 35
    /\ related_topics r
       = "Alfred P. Murrah Federal Building, Oklahoma City, Timothy McVeigh, Terry Nichols"
    /\ topic_page_urls r
       = "Alfred P. Murrah Federal Building: , Oklahoma City: https://en.wikipedia.org/wiki/Oklahoma_City, Timothy McVeigh: , Terry Nichols: ".
Proof. eexists. split; [vm_compute; reflexivity | repeat split]. Qed.

(** ** The normalizers: lockstep, dates and years *)

Section NormalizerClaims.

Variable iso_fields : string -> option (Z * Z * Z).
Variable py_str : json -> string.
Variable lower : string -> string.
Variable isalnum : char -> bool.

Local Abbreviation accepted := (accepted_by iso_fields py_str lower isalnum).

Lemma accepted_lockstep (label : string) (r : row) (a : acc) :
  accepted label r -> lockstep a -> lockstep (accept label r a).
Proof.
  intros H. apply lockstep_accept.
  now destruct (accepted_fields _ _ _ _ _ _ H) as [_ [? _]].
Qed.

Lemma accepted_date_labelled (label : string) (r : row) (a : acc) :
  accepted label r ->
  date_labelled (events_by_date a) ->
  date_labelled (events_by_date (accept label r a)).
Proof.
  intros H. apply date_labelled_accept.
  now destruct (accepted_fields _ _ _ _ _ _ H) as [_ [_ ?]].
Qed.

Lemma normalize_inv (I : acc -> Prop) (b : batch) (a a' : acc) :
  (forall label r a, accepted label r -> I a -> I (accept label r a)) ->
  I a -> normalize iso_fields py_str lower isalnum b a = Ok a' -> I a'.
Proof.
  intros HI Ha H. destruct b as [data|day feed]; simpl in H.
  - ok_inv H. subst a'.
    eapply process_wikidata_results_inv; eassumption.
  - eapply onthisday_day_inv; eassumption.
Qed.

(** C1. Whatever batch a normalizer processes, Wikidata response or daily
    feed, accumulators that were in lockstep are in lockstep afterwards:
    the keys of the Date Group Map stay distinct, under every date label
    the map lists exactly the entries [{event: payload}] of the rows of the
    flat list that carry that label, in the same order, and the map holds
    as many entries as the flat list holds rows. *)
Theorem normalizers_keep_lockstep (b : batch) (a a' : acc) :
  lockstep a ->
  normalize iso_fields py_str lower isalnum b a = Ok a' ->
  lockstep a'.
Proof.
  apply normalize_inv. intros label r a0. apply accepted_lockstep.
Qed.

(** C8. Every record either normalizer accepts has a [month] and a [day] of
    exactly two decimal digits that together name a day of the calendar,
    February 29 included. *)
Theorem accepted_month_day_valid (label : string) (r : row) :
  accepted label r -> valid_month_day r = true.
Proof.
  intros H. now destruct (accepted_fields _ _ _ _ _ _ H) as [? _].
Qed.

(** C2, as amended. A record accepted from a daily feed has a year that
    is a number for which the test [year < YEAR_CUTOFF] fails: an integer
    at or above the cutoff, or a float that is not below it; the year need
    not be an integer. A record accepted from Wikidata carries the year of
    its parsed date, an integer between 1 and 9999: the normalizer applies
    no cutoff of its own. *)
Theorem accepted_year (label : string) (r : row) :
  accepted label r ->
  (source r = "OnThisDay"
   /\ ((exists z, year_of_event r = JNum z /\ YEAR_CUTOFF <= z)
       \/ (exists f,
             year_of_event r = JFloat f
             /\ float_lt_int f YEAR_CUTOFF = false)))
  \/ (source r = "Wikidata"
      /\ exists z,
           year_of_event r = JNum z /\ 1 <= z <= 9999
           /\ exists item dt,
                item_date iso_fields item = Ok dt /\ z = year dt).
Proof.
  intros H. destruct H as [item label r H | day ev r H].
  - right. apply wikidata_row_Ok in H.
    destruct H as [dt [Hd [V [_ [Hs [_ [_ Hy]]]]]]].
    split; [exact Hs|]. exists (year dt). split; [exact Hy|].
    split; [|eauto].
    unfold valid_date in V.
    repeat (apply andb_prop in V; destruct V as [V ?]).
    repeat match goal with
           | H : (_ <=? _) = true |- _ => apply Z.leb_le in H
           end.
    lia.
  - left. apply onthisday_event_Ok in H.
    destruct H as [Hs [_ [_ [[_ Hy] _]]]]. split; [exact Hs|].
    now destruct (year_check_Some _ _ Hy) as [_ ?].
Qed.

(** The rows of a whole run are accepted records. *)
Lemma collect_rows_accepted (wikidata_json : json)
  (feeds : nat -> option json) (a : acc) :
  collect iso_fields py_str lower isalnum wikidata_json feeds = Ok a ->
  Forall (fun r => exists label, accepted label r) (all_rows a).
Proof.
  apply (collect_inv iso_fields py_str lower isalnum
           (fun a => Forall (fun r => exists label, accepted label r)
                            (all_rows a))).
  - intros label r a0 H Ha. simpl. apply Forall_app. split; [exact Ha|].
    constructor; [eauto | constructor].
  - constructor.
Qed.


Lemma collect_date_labelled (wikidata_json : json)
  (feeds : nat -> option json) (a : acc) :
  collect iso_fields py_str lower isalnum wikidata_json feeds = Ok a ->
  date_labelled (events_by_date a).
Proof.
  apply (collect_inv iso_fields py_str lower isalnum
           (fun a => date_labelled (events_by_date a))).
  - intros label r a0. apply accepted_date_labelled.
  - split; constructor.
Qed.

End NormalizerClaims.

Lemma normalizers_keep_lockstep_witness :
  exists a',
    normalize iso_fields_basic py_str_scalar lower_basic isalnum_basic
              (WikidataBatch wikidata_sample) (mkacc [] []) = Ok a'
    /\ List.length (all_rows a') = 2%nat
    /\ lockstep a'.
Proof.
  eexists. split; [vm_compute; reflexivity|]. split; [reflexivity|].
  apply (normalizers_keep_lockstep iso_fields_basic py_str_scalar lower_basic
           isalnum_basic
           (WikidataBatch wikidata_sample) (mkacc [] [])).
  - apply lockstep_empty.
  - vm_compute. reflexivity.
Defined.

Lemma accepted_month_day_valid_witness :
  exists r,
    onthisday_event py_str_scalar lower_basic isalnum_basic "02" "29"
                    ev_bombing
    = Ok (Some r)
    /\ month r = "02" /\ day r = "29"
    /\ valid_month_day r = true.
Proof.
  eexists. split; [vm_compute; reflexivity|]. do 2 (split; [reflexivity|]).
  apply (accepted_month_day_valid iso_fields_basic py_str_scalar lower_basic
           isalnum_basic
           (date_label (month_of (day_date 60)) (day_of (day_date 60)))).
  apply (accepted_onthisday _ _ _ _ 60%nat ev_bombing).
  vm_compute. reflexivity.
Defined.

Lemma accepted_year_witness :
  (source row_bombing = "OnThisDay"
   /\ ((exists z, year_of_event row_bombing = JNum z /\ YEAR_CUTOFF <= z)
       \/ (exists f,
             year_of_event row_bombing = JFloat f
             /\ float_lt_int f YEAR_CUTOFF = false)))
  \/ (source row_bombing = "Wikidata"
      /\ exists z,
           year_of_event row_bombing = JNum z /\ 1 <= z <= 9999
           /\ exists item dt,
                item_date iso_fields_basic item = Ok dt /\ z = year dt).
Proof.
  apply (accepted_year iso_fields_basic py_str_scalar lower_basic isalnum_basic
           (date_label (month_of (day_date 110)) (day_of (day_date 110)))).
  apply (accepted_onthisday _ _ _ _ 110%nat ev_bombing).
  vm_compute. reflexivity.
Defined.

(** C2, as stated, fails. On the Wikidata path a row dated 1850 is
    accepted, with a year below the cutoff. On the path of the daily feeds
    an event of the year 1995.5 is accepted with that year, which is no
    integer, and so is an event whose year is not-a-number, which is not at
    or above the cutoff. *)
Lemma accepted_years_outside_claim :
  (exists label r,
      wikidata_row iso_fields_basic lower_basic row_1850 = Ok (label, r)
      /\ accepted_by iso_fields_basic py_str_scalar lower_basic isalnum_basic
                     label r
      /\ year_of_event r = JNum 1850
      /\ ~ YEAR_CUTOFF <= 1850)
  /\ (exists r,
        onthisday_event py_str_scalar lower_basic isalnum_basic "04" "19"
                        ev_year_fraction
        = Ok (Some r)
        /\ year_of_event r = JFloat (FFin 3991 (-1)))
  /\ (exists r,
        onthisday_event py_str_scalar lower_basic isalnum_basic "04" "19"
                        ev_year_nan
        = Ok (Some r)
        /\ year_of_event r = JFloat FNaN).
Proof.
  split; [|split].
  - eexists. eexists.
    split; [vm_compute; reflexivity|].
    split.
    { apply (accepted_wikidata _ _ _ _ row_1850). vm_compute. reflexivity. }
    split; [reflexivity|]. unfold YEAR_CUTOFF. lia.
  - eexists. split; [vm_compute; reflexivity | reflexivity].
  - eexists. split; [vm_compute; reflexivity | reflexivity].
Defined.

(** ** The Wikidata loop: rejected rows and the counters *)

Section WikidataClaims.

Variable iso_fields : string -> option (Z * Z * Z).
Variable lower : string -> string.

Lemma binding_value_outcome (item : json) (name : string) (d : json) :
  (exists v, binding_value item name d = Ok v)
  \/ binding_value item name d = Raise AttributeError.
Proof.
  unfold binding_value, py_get.
  destruct item as [| | | | | |m]; simpl; auto.
  destruct (assoc name m) as [[| | | | | |f]|]; simpl; eauto.
Qed.

Lemma as_str_outcome (v : json) :
  (exists s, as_str v = Ok s) \/ as_str v = Raise AttributeError.
Proof.
  destruct v; simpl; eauto.
Qed.

(** Past the label step the body of the [try] raises no [ValueError]. *)
Lemma wikidata_row_after_label (item : json) (dt : date) (et : string) :
  item_date iso_fields item = Ok dt ->
  item_label item = Ok et ->
  wikidata_row iso_fields lower item <> Raise ValueError.
Proof.
  intros Hd Hl. unfold wikidata_row. rewrite Hd, Hl. simpl.
  destruct (binding_value_outcome item "countryLabel" (JStr ""))
    as [[v1 ->]| ->]; simpl; [|discriminate].
  destruct (binding_value_outcome item "crimeTypeLabel" (JStr "crime"))
    as [[v2 ->]| ->]; simpl; [|discriminate].
  destruct (as_str_outcome v2) as [[s ->]| ->]; simpl; [|discriminate].
  destruct (binding_value_outcome item "article" (JStr ""))
    as [[v3 ->]| ->]; simpl; discriminate.
Qed.

(** C3, as amended. For a row whose date parsed, the label step rejects the
    row, with a [ValueError], exactly when the label is absent or empty or
    is text that starts with the letter Q, whatever follows the Q. *)
Theorem label_rule (item : json) (dt : date) (v : json) :
  item_date iso_fields item = Ok dt ->
  binding_value item "itemLabel" JNull = Ok v ->
  (wikidata_row iso_fields lower item = Raise ValueError
   <-> truthy v = false \/ exists s, v = JStr s /\ prefixb "Q" s = true).
Proof.
  intros Hd Hv.
  destruct (item_label item) as [et|e] eqn:El.
  - split.
    + intros H. now apply (wikidata_row_after_label item dt et) in H.
    + unfold item_label in El. rewrite Hv in El. cbn [bind] in El.
      intros [H|[s [-> H]]].
      * rewrite H in El. discriminate.
      * destruct (truthy (JStr s)); cbn [negb as_str bind] in El;
          [|discriminate].
        rewrite H in El. discriminate.
  - assert (W : wikidata_row iso_fields lower item = Raise e).
    { unfold wikidata_row. rewrite Hd. cbn [bind]. rewrite El. reflexivity. }
    rewrite W. unfold item_label in El. rewrite Hv in El. cbn [bind] in El.
    destruct (truthy v) eqn:T; cbn [negb] in El.
    + destruct v as [| | | |s| |]; cbn [as_str bind] in El;
        try (injection El as <-; split;
             [discriminate | intros [H|[s [H _]]]; discriminate]).
      destruct (prefixb "Q" s) eqn:Q; [|discriminate].
      injection El as <-. split; eauto.
    + injection El as <-. split; auto.
Qed.

(** The counters of the loop: every row moves exactly one of them, and the
    processed one moves with the flat list. *)
Lemma wikidata_loop_counts (items : list json) (st st' : wikidata_state) :
  wikidata_loop iso_fields lower items st = Ok st' ->
  (processed_count st' + skipped_count st'
   = processed_count st + skipped_count st + List.length items)%nat
  /\ (List.length (all_rows (wd_acc st')) + processed_count st
      = List.length (all_rows (wd_acc st)) + processed_count st')%nat.
Proof.
  revert st. induction items as [|item rest IH]; simpl; intros st H.
  - injection H as <-. lia.
  - destruct (wikidata_row iso_fields lower item) as [[label r]|e].
    + apply IH in H. simpl in H. rewrite length_app in H. simpl in H. lia.
    + destruct e; try discriminate; apply IH in H; simpl in H; lia.
Qed.

Lemma typed_binding_value (item : json) (name : string) (d : json) :
  typed_binding item name = true ->
  binding_value item name d = Ok d
  \/ exists s, binding_value item name d = Ok (JStr s).
Proof.
  unfold typed_binding, binding_value, py_get.
  destruct item as [| | | | | |m]; try discriminate.
  destruct (assoc name m) as [[| | | | | |f]|]; try discriminate; simpl; auto.
  destruct (assoc "value" f) as [[| | | |s| |]|]; try discriminate; eauto.
Qed.

(** A row of the declared shape is accepted or skipped. *)
Lemma typed_row_outcome (item : json) :
  typed_row item = true ->
  (exists out, wikidata_row iso_fields lower item = Ok out)
  \/ wikidata_row iso_fields lower item = Raise ValueError.
Proof.
  unfold typed_row. simpl. intros H.
  repeat (apply andb_prop in H; let H' := fresh "T" in destruct H as [H' H]).
  unfold wikidata_row, item_date, item_label.
  destruct (typed_binding_value item "date" JNull T) as [-> | [s ->]];
    cbn [bind truthy negb]; auto.
  destruct (String.eqb s ""); cbn [bind negb as_str]; auto.
  destruct (fromisoformat iso_fields (replace_char "Z" "+00:00" s))
    as [dt|e] eqn:F; cbn [bind].
  2:{ unfold fromisoformat in F.
      destruct (iso_fields _) as [[[y m] d]|];
        [destruct (valid_date y m d)|]; try discriminate;
        injection F as <-; auto. }
  destruct (typed_binding_value item "itemLabel" JNull T0) as [-> | [l ->]];
    cbn [bind truthy negb]; auto.
  destruct (String.eqb l ""); cbn [bind negb as_str]; auto.
  destruct (prefixb "Q" l); cbn [bind]; auto.
  destruct (typed_binding_value item "countryLabel" (JStr "") T1)
    as [-> | [c ->]];
  destruct (typed_binding_value item "crimeTypeLabel" (JStr "crime") T2)
    as [-> | [k ->]];
  destruct (typed_binding_value item "article" (JStr "") T3)
    as [-> | [u ->]]; cbn [bind as_str]; eauto.
Qed.

Lemma typed_rows_loop (items : list json) (st : wikidata_state) :
  Forall (fun item => typed_row item = true) items ->
  exists st', wikidata_loop iso_fields lower items st = Ok st'.
Proof.
  intros H. revert st. induction H as [|item rest Hi _ IH]; simpl; intros st.
  - eauto.
  - destruct (typed_row_outcome item Hi) as [[[label r] ->]| ->]; apply IH.
Qed.

(** An exception that leaves the loop is none of the two the [except]
    clause names. *)
Lemma wikidata_loop_raise (items : list json) (st : wikidata_state) (e : exn) :
  wikidata_loop iso_fields lower items st = Raise e ->
  e <> ValueError /\ e <> KeyError.
Proof.
  revert st. induction items as [|item rest IH]; simpl; intros st H.
  - discriminate.
  - destruct (wikidata_row iso_fields lower item) as [[label r]|e'].
    + exact (IH _ H).
    + destruct e'; try exact (IH _ H); injection H as <-;
        split; discriminate.
Qed.

(** C10, as amended. For a payload with a [results.bindings] array: when
    the normalizer returns, it reports two counters whose sum is the number
    of rows of the array, the processed one being the number of records the
    call appended to the flat list; when every row has the declared shape
    (each field absent, or an object whose value is absent or a string) the
    normalizer does return, with such counters; and an exception that ends
    the call is neither a [ValueError] nor a [KeyError]. *)
Theorem wikidata_counts (data res bindings : json) (items : list json)
  (a : acc) :
  py_index data "results" = Ok res ->
  py_index res "bindings" = Ok bindings ->
  py_iter bindings = Ok items ->
  (forall out,
      process_wikidata_results iso_fields lower data a = Ok out ->
      exists processed skipped,
        snd out = Some (processed, skipped)
        /\ (processed + skipped = List.length items)%nat
        /\ (List.length (all_rows (fst out))
            = List.length (all_rows a) + processed)%nat)
  /\ (Forall (fun item => typed_row item = true) items ->
      exists out processed skipped,
        process_wikidata_results iso_fields lower data a = Ok out
        /\ snd out = Some (processed, skipped)
        /\ (processed + skipped = List.length items)%nat
        /\ (List.length (all_rows (fst out))
            = List.length (all_rows a) + processed)%nat)
  /\ (forall e,
        process_wikidata_results iso_fields lower data a = Raise e ->
        e <> ValueError /\ e <> KeyError).
Proof.
  intros Hr Hb Hi.
  assert (Td : truthy data = true /\ py_in "results" data = Ok true).
  { unfold py_index in Hr. destruct data as [| | | | | |m]; try discriminate.
    simpl. destruct (assoc "results" m) eqn:A; [|discriminate].
    destruct m; [discriminate | auto]. }
  assert (Tb : py_in "bindings" res = Ok true).
  { unfold py_index in Hb. destruct res as [| | | | | |m]; try discriminate.
    simpl. destruct (assoc "bindings" m); [reflexivity | discriminate]. }
  assert (Tl : exists n, py_len bindings = Ok n).
  { destruct bindings; try discriminate; simpl; eauto. }
  destruct Td as [Td1 Td2]. destruct Tl as [n Tl].
  unfold process_wikidata_results.
  rewrite Td1, Td2. simpl. rewrite Hr. simpl. rewrite Tb. simpl.
  rewrite Hb. simpl. rewrite Tl. simpl. rewrite Hi. simpl.
  assert (Counts : forall st,
             wikidata_loop iso_fields lower items (mkwd a 0 0) = Ok st ->
             (processed_count st + skipped_count st = List.length items)%nat
             /\ (List.length (all_rows (wd_acc st))
                 = List.length (all_rows a) + processed_count st)%nat).
  { intros st L. apply wikidata_loop_counts in L. simpl in L. lia. }
  split; [|split].
  - intros out H. apply bind_Ok in H. destruct H as [st [L H]].
    injection H as <-. simpl.
    exists (processed_count st), (skipped_count st).
    split; [reflexivity | exact (Counts st L)].
  - intros T. destruct (typed_rows_loop items (mkwd a 0 0) T) as [st L].
    rewrite L. simpl.
    exists (wd_acc st, Some (processed_count st, skipped_count st)),
           (processed_count st), (skipped_count st).
    split; [reflexivity|]. split; [reflexivity | exact (Counts st L)].
  - intros e H.
    destruct (wikidata_loop iso_fields lower items (mkwd a 0 0))
      as [st|e'] eqn:L; simpl in H; [discriminate|].
    injection H as <-. exact (wikidata_loop_raise _ _ _ L).
Qed.

End WikidataClaims.

Lemma label_rule_witness :
  item_date iso_fields_basic row_unresolved = Ok (mkdate 1995 3 20)
  /\ binding_value row_unresolved "itemLabel" JNull = Ok (JStr "Q12345")
  /\ (wikidata_row iso_fields_basic lower_basic row_unresolved
      = Raise ValueError
      <-> truthy (JStr "Q12345") = false
          \/ exists s, JStr "Q12345" = JStr s /\ prefixb "Q" s = true).
Proof.
  split; [reflexivity|]. split; [reflexivity|].
  apply (label_rule iso_fields_basic lower_basic row_unresolved
           (mkdate 1995 3 20)
           (JStr "Q12345")); reflexivity.
Defined.

(** C3, as stated, fails: the label "Quebec shooting" is resolved text, not
    a Q followed by digits, and the date of the row parses, yet the row is
    rejected and counted as skipped. *)
Lemma quebec_shooting_rejected :
  spec_entity_id "Quebec shooting" = false
  /\ spec_entity_id "Q12345" = true
  /\ item_date iso_fields_basic row_quebec = Ok (mkdate 2017 1 29)
  /\ wikidata_row iso_fields_basic lower_basic row_quebec = Raise ValueError
  /\ wikidata_loop iso_fields_basic lower_basic [row_quebec]
                   (mkwd (mkacc [] []) 0 0)
     = Ok (mkwd (mkacc [] []) 0 1).
Proof.
  repeat split.
Defined.

Lemma wikidata_counts_witness :
  (forall out,
      process_wikidata_results iso_fields_basic lower_basic wikidata_sample
                               (mkacc [] [])
      = Ok out ->
      exists processed skipped,
        snd out = Some (processed, skipped)
        /\ (processed + skipped = 5)%nat
        /\ (List.length (all_rows (fst out)) = 0 + processed)%nat)
  /\ (Forall (fun item => typed_row item = true)
             [row_1850; row_quebec; row_unresolved; row_bad_date; row_1995] ->
      exists out processed skipped,
        process_wikidata_results iso_fields_basic lower_basic wikidata_sample
                                 (mkacc [] []) = Ok out
        /\ snd out = Some (processed, skipped)
        /\ (processed + skipped = 5)%nat
        /\ (List.length (all_rows (fst out)) = 0 + processed)%nat)
  /\ (forall e,
        process_wikidata_results iso_fields_basic lower_basic wikidata_sample
                                 (mkacc [] []) = Raise e ->
        e <> ValueError /\ e <> KeyError).
Proof.
  apply (wikidata_counts iso_fields_basic lower_basic wikidata_sample
           (JObj [("bindings",
                   JArr [row_1850; row_quebec; row_unresolved; row_bad_date;
                         row_1995])])
           (JArr [row_1850; row_quebec; row_unresolved; row_bad_date;
                  row_1995])
           [row_1850; row_quebec; row_unresolved; row_bad_date; row_1995]
           (mkacc [] [])); reflexivity.
Defined.

(** C10, as stated, fails: a payload with a [results.bindings] array of two
    rows, the second with a string where the object of its date should be,
    ends the call with an [AttributeError] after the first row was
    appended; no counter is reported and the second row is counted by
    neither. *)
Lemma wikidata_rows_uncounted :
  py_index wikidata_malformed "results"
  = Ok (JObj [("bindings", JArr [row_1995; row_date_text])])
  /\ py_index (JObj [("bindings", JArr [row_1995; row_date_text])]) "bindings"
     = Ok (JArr [row_1995; row_date_text])
  /\ py_iter (JArr [row_1995; row_date_text]) = Ok [row_1995; row_date_text]
  /\ (exists out, wikidata_row iso_fields_basic lower_basic row_1995 = Ok out)
  /\ wikidata_row iso_fields_basic lower_basic row_date_text
     = Raise AttributeError
  /\ process_wikidata_results iso_fields_basic lower_basic wikidata_malformed
                              (mkacc [] [])
     = Raise AttributeError
  /\ ~ exists out,
        process_wikidata_results iso_fields_basic lower_basic wikidata_malformed
                                 (mkacc [] []) = Ok out.
Proof.
  split; [reflexivity|]. split; [reflexivity|]. split; [reflexivity|].
  split; [eexists; vm_compute; reflexivity|].
  split; [vm_compute; reflexivity|].
  assert (E : process_wikidata_results iso_fields_basic lower_basic
                                       wikidata_malformed (mkacc [] [])
              = Raise AttributeError) by (vm_compute; reflexivity).
  split; [exact E|]. intros [out H]. rewrite E in H. discriminate.
Defined.

(** ** The daily feeds: failures, keywords and related pages *)

(** C4. An event of a daily feed that lacks its text raises a [KeyError]
    that nothing in the loop of the feed catches: the batch of the day and
    the whole collecting phase end with it, the events after it unread. So
    does a page without a title. The Wikidata loop skips such a row and goes
    on. *)
Theorem onthisday_missing_field_aborts :
  onthisday_event py_str_scalar lower_basic isalnum_basic "04" "19"
                  ev_no_text
  = Raise KeyError
  /\ onthisday_event py_str_scalar lower_basic isalnum_basic "04" "19"
                     ev_no_title
     = Raise KeyError
  /\ onthisday_day py_str_scalar lower_basic isalnum_basic 110
       (Some (JObj [("events", JArr [ev_no_text; ev_bombing])])) (mkacc [] [])
     = Raise KeyError
  /\ collect iso_fields_basic py_str_scalar lower_basic isalnum_basic JNull
       (fun day => if Nat.eqb day 110
                   then Some (JObj [("events", JArr [ev_no_text; ev_bombing])])
                   else None)
     = Raise KeyError
  /\ wikidata_loop iso_fields_basic lower_basic [JObj []; row_1995]
                   (mkwd (mkacc [] []) 0 0)
     = wikidata_loop iso_fields_basic lower_basic [row_1995]
                     (mkwd (mkacc [] []) 0 1).
Proof.
  repeat split; vm_compute; reflexivity.
Qed.

Lemma mapM_Forall2 {A B : Type} (f : A -> result B) (l : list A)
  (ys : list B) :
  mapM f l = Ok ys -> Forall2 (fun x y => f x = Ok y) l ys.
Proof.
  revert ys. induction l as [|x l IH]; simpl; intros ys H.
  - injection H as <-. constructor.
  - ok_inv H. subst ys. constructor; auto.
Qed.

Lemma Forall2_mapM {A B : Type} (f : A -> result B) (l : list A)
  (ys : list B) :
  Forall2 (fun x y => f x = Ok y) l ys -> mapM f l = Ok ys.
Proof.
  induction 1 as [|x y l ys Hx _ IH]; simpl; [reflexivity|].
  rewrite Hx. simpl. rewrite IH. reflexivity.
Qed.

Section OnThisDayClaims.

Variable py_str : json -> string.
Variable lower : string -> string.
Variable isalnum : char -> bool.

(** The entries of the topic URL list, over the titles and URLs of the
    pages. *)
Lemma topic_urls_combine (l : list json) (ts zs : list string) :
  mapM page_title l = Ok ts ->
  mapM (topic_url py_str) l = Ok zs ->
  exists us,
    Forall2 (fun p u => desktop_url p = Ok u) l us
    /\ zs = map (fun tu => fst tu ++ ": " ++ format_value py_str (snd tu))
                (combine ts us).
Proof.
  revert ts zs. induction l as [|p l IH]; simpl; intros ts zs Ht Hz.
  - injection Ht as <-. injection Hz as <-. exists []. split; constructor.
  - ok_inv Ht. ok_inv Hz. subst ts zs.
    unfold topic_url in E1. ok_inv E1. subst.
    rewrite E in E3. injection E3 as <-.
    destruct (IH _ _ E0 E2) as [us [Hf ->]].
    exists (x4 :: us). split; [constructor; auto | reflexivity].
Qed.

(** What the loop of a feed reads of an accepted event. *)
Lemma onthisday_event_pages (mm dd : string) (ev : json) (r : row) :
  onthisday_event py_str lower isalnum mm dd ev = Ok (Some r) ->
  exists P topics urls,
    py_get ev "pages" (JArr []) = Ok (JArr P)
    /\ P <> []
    /\ mapM page_title (slice 1 MAX_PAGES P) = Ok topics
    /\ mapM (topic_url py_str) (slice 1 MAX_PAGES P) = Ok urls
    /\ related_topics r = join ", " topics
    /\ topic_page_urls r = join ", " urls.
Proof.
  intros H. unfold onthisday_event in H.
  apply bind_Ok in H. destruct H as [text [Et H]].
  destruct text as [| | | |t| |]; try discriminate.
  destruct (CRIME_RE_search isalnum t) as [g|]; [|discriminate].
  apply bind_Ok in H. destruct H as [y [Ey H]].
  apply bind_Ok in H. destruct H as [yc [Eyc H]].
  destruct yc as [event_year|]; [|discriminate].
  ok_inv H. subst r. simpl.
  destruct x as [| | | |s|P|]; try discriminate.
  - destruct s; [discriminate|]. simpl in E0. injection E0 as <-.
    discriminate.
  - exists P.
    repeat match goal with
           | H : py_slice _ _ (JArr _) = Ok _ |- _ =>
               unfold py_slice in H; injection H as <-
           end.
    do 2 eexists. repeat split; try eassumption; try reflexivity.
    now destruct P.
Qed.

(** C5. Of an accepted event of a daily feed, [related_topics] is the
    ", "-join of the underscore-replaced titles of the pages that follow the
    primary one among the first MAX_PAGES pages, and [topic_page_urls] the
    ", "-join of "title: desktop URL" over the same pages, in order; a page
    without [content_urls] gives an empty URL. *)
Theorem related_pages_joined (mm dd : string) (ev : json) (r : row) :
  onthisday_event py_str lower isalnum mm dd ev = Ok (Some r) ->
  exists P titles urls,
    py_get ev "pages" (JArr []) = Ok (JArr P)
    /\ Forall2 (fun p t =>
                  exists s, py_index p "title" = Ok (JStr s)
                            /\ t = replace_char "_" " " s)
               (skipn 1 (firstn MAX_PAGES P)) titles
    /\ Forall2 (fun p u =>
                  desktop_url p = Ok u
                  /\ (py_in "content_urls" p = Ok false -> u = JStr ""))
               (skipn 1 (firstn MAX_PAGES P)) urls
    /\ (List.length titles <= MAX_PAGES - 1)%nat
    /\ related_topics r = join ", " titles
    /\ topic_page_urls r
       = join ", "
           (map (fun tu => fst tu ++ ": " ++ format_value py_str (snd tu))
                (combine titles urls)).
Proof.
  intros H. apply onthisday_event_pages in H.
  destruct H as [P [topics [zs [Hp [_ [Ht [Hz [Hr Hu]]]]]]]].
  destruct (topic_urls_combine _ _ _ Ht Hz) as [us [Hf ->]].
  assert (S : slice 1 MAX_PAGES P = skipn 1 (firstn MAX_PAGES P)).
  { unfold slice. apply (firstn_skipn_comm (MAX_PAGES - 1) 1 P). }
  rewrite S in *. apply mapM_Forall2 in Ht.
  exists P, topics, us. repeat split; auto.
  - eapply Forall2_impl; [|exact Ht]. intros p t Hpt. simpl in Hpt.
    unfold page_title in Hpt. ok_inv Hpt. subst t.
    destruct x; try discriminate. injection E0 as <-. eauto.
  - eapply Forall2_impl; [|exact Hf]. intros p u Hd. simpl in Hd.
    split; [exact Hd|]. intros Hin.
    destruct p as [| | | | | |m]; try discriminate.
    unfold desktop_url in Hd. simpl in Hd, Hin.
    destruct (assoc "content_urls" m); [discriminate|].
    simpl in Hd. now injection Hd as <-.
  - apply Forall2_length in Ht. rewrite <- Ht, length_skipn, length_firstn.
    unfold MAX_PAGES. lia.
Qed.

End OnThisDayClaims.

Lemma related_pages_joined_witness :
  exists P titles urls,
    py_get ev_bombing "pages" (JArr []) = Ok (JArr P)
    /\ Forall2 (fun p t =>
                  exists s, py_index p "title" = Ok (JStr s)
                            /\ t = replace_char "_" " " s)
               (skipn 1 (firstn MAX_PAGES P)) titles
    /\ Forall2 (fun p u =>
                  desktop_url p = Ok u
                  /\ (py_in "content_urls" p = Ok false -> u = JStr ""))
               (skipn 1 (firstn MAX_PAGES P)) urls
    /\ (List.length titles <= MAX_PAGES - 1)%nat
    /\ related_topics row_bombing = join ", " titles
    /\ topic_page_urls row_bombing
       = join ", "
           (map (fun tu => fst tu ++ ": "
                           ++ format_value py_str_scalar (snd tu))
                (combine titles urls)).
Proof.
  apply (related_pages_joined py_str_scalar lower_basic isalnum_basic "04" "19"
           ev_bombing row_bombing).
  vm_compute. reflexivity.
Defined.

(** ** What the search of the pattern finds *)

Lemma append_assoc (a b c : string) : (a ++ b) ++ c = a ++ b ++ c.
Proof.
  induction a as [|x a IH]; simpl; [reflexivity | now rewrite IH].
Qed.

Lemma append_empty (a : string) : a ++ "" = a.
Proof.
  induction a as [|x a IH]; simpl; [reflexivity | now rewrite IH].
Qed.

Lemma last_char_None (s : string) : last_char s = None -> s = "".
Proof.
  induction s as [|c s IH]; [reflexivity|].
  simpl. destruct s; [discriminate|]. intros H. apply IH in H. discriminate.
Qed.

Lemma last_char_snoc (p : string) (c : char) :
  last_char (p ++ String c "") = Some c.
Proof.
  induction p as [|x p IH]; [reflexivity|].
  simpl. destruct (p ++ String c "") eqn:E; [|exact IH].
  destruct p; discriminate.
Qed.

Lemma last_char_cons (b : char) (m : string) :
  last_char (String b m)
  = match last_char m with Some c => Some c | None => Some b end.
Proof.
  simpl. destruct m as [|c m]; [reflexivity|].
  destruct (last_char (String c m)) eqn:E; [reflexivity|].
  apply last_char_None in E. discriminate.
Qed.

Lemma match_word_sound (w s : string) (l0 : option char) (m : string)
  (l : option char) (rest : string) :
  match_word w s l0 = Some (m, l, rest) ->
  s = m ++ rest /\ ci_equal w m = true
  /\ l = match last_char m with Some c => Some c | None => l0 end.
Proof.
  revert s l0 m l rest.
  induction w as [|a w IH]; simpl; intros s l0 m l rest H.
  - injection H as <- <- <-. auto.
  - destruct s as [|b s]; [discriminate|].
    destruct (ci_match a b) eqn:E; [|discriminate].
    destruct (match_word w s (Some b)) as [[[m' l'] rest']|] eqn:M;
      [|discriminate].
    injection H as <- <- <-.
    destruct (IH _ _ _ _ _ M) as [-> [C ->]].
    rewrite last_char_cons. cbn [append ci_equal]. rewrite E, C.
    repeat split. now destruct (last_char m').
Qed.

Lemma match_word_complete (w m rest : string) (l0 : option char) :
  ci_equal w m = true ->
  match_word w (m ++ rest) l0
  = Some (m, match last_char m with Some c => Some c | None => l0 end, rest).
Proof.
  revert m l0. induction w as [|a w IH]; intros [|b m] l0 C;
    try discriminate; [reflexivity|].
  cbn [ci_equal] in C. apply andb_prop in C. destruct C as [E C].
  cbn [append match_word]. rewrite E, (IH _ _ C).
  rewrite last_char_cons. now destruct (last_char m).
Qed.

Section SearchProofs.

Variable isalnum : char -> bool.

Lemma word_here_sound (s w m : string) :
  word_here isalnum s w = Some m ->
  exists post,
    s = m ++ post /\ ci_equal w m = true
    /\ boundary isalnum (last_char m) (head_char post) = true.
Proof.
  unfold word_here. intros H.
  destruct (match_word w s None) as [[[m' l] rest]|] eqn:M; [|discriminate].
  destruct (match_word_sound _ _ _ _ _ _ M) as [-> [C ->]].
  destruct (boundary _ _ (head_char rest)) eqn:B; [|discriminate].
  injection H as <-. exists rest. repeat split; [exact C|].
  destruct (last_char m'); exact B.
Qed.

Lemma word_here_complete (w m post : string) :
  ci_equal w m = true ->
  boundary isalnum (last_char m) (head_char post) = true ->
  word_here isalnum (m ++ post) w = Some m.
Proof.
  intros C B. unfold word_here. rewrite (match_word_complete _ _ _ _ C).
  destruct (last_char m); rewrite B; reflexivity.
Qed.

Lemma first_word_sound (s : string) (ws : list string) (m : string) :
  first_word isalnum s ws = Some m ->
  exists w, In w ws /\ word_here isalnum s w = Some m.
Proof.
  induction ws as [|w ws IH]; simpl; [discriminate|].
  destruct (word_here isalnum s w) as [m'|] eqn:W.
  - intros H. injection H as <-. eauto.
  - intros H. destruct (IH H) as [w' [? ?]]. eauto.
Qed.

Lemma first_word_None (s : string) (ws : list string) (w : string) :
  first_word isalnum s ws = None -> In w ws -> word_here isalnum s w = None.
Proof.
  induction ws as [|w' ws IH]; simpl; [tauto|].
  destruct (word_here isalnum s w') eqn:W; [discriminate|].
  intros H [<-|Hin]; auto.
Qed.

Lemma match_here_sound (pre s m : string) :
  match_here isalnum (last_char pre) s = Some m ->
  exists post, s = m ++ post /\ keyword_at isalnum pre m post.
Proof.
  unfold match_here.
  destruct (boundary isalnum (last_char pre) (head_char s)) eqn:B;
    [|discriminate].
  intros H. apply first_word_sound in H. destruct H as [w [Hin H]].
  apply word_here_sound in H. destruct H as [post [-> [C Hb]]].
  exists post. split; [reflexivity|]. split; [eauto|]. split; assumption.
Qed.

Lemma match_here_None (pre m post : string) :
  match_here isalnum (last_char pre) (m ++ post) = None ->
  ~ keyword_at isalnum pre m post.
Proof.
  unfold match_here. intros H [[w [Hin C]] [B1 B2]]. rewrite B1 in H.
  apply (first_word_None _ _ w) in H; [|exact Hin].
  rewrite (word_here_complete _ _ _ C B2) in H. discriminate.
Qed.

(** The search answers with the leftmost keyword of the text. *)
Lemma search_from_sound (pre0 s g : string) :
  search_from isalnum (last_char pre0) s = Some g ->
  exists pre post,
    s = pre ++ g ++ post
    /\ keyword_at isalnum (pre0 ++ pre) g post
    /\ forall pre' m' post',
         s = pre' ++ m' ++ post' ->
         keyword_at isalnum (pre0 ++ pre') m' post' ->
         (String.length pre <= String.length pre')%nat.
Proof.
  revert pre0. induction s as [|c s IH]; intros pre0 H.
  - simpl in H.
    destruct (match_here isalnum (last_char pre0) "") as [m|] eqn:M;
      [|discriminate].
    injection H as <-. apply match_here_sound in M.
    destruct M as [post [E K]]. exists "", post.
    rewrite append_empty.
    split; [exact E|]. split; [exact K|]. intros. simpl. lia.
  - cbn [search_from] in H.
    destruct (match_here isalnum (last_char pre0) (String c s)) as [m|] eqn:M.
    + injection H as <-. apply match_here_sound in M.
      destruct M as [post [E K]]. exists "", post.
      rewrite append_empty.
      split; [exact E|]. split; [exact K|]. intros. simpl. lia.
    + rewrite <- (last_char_snoc pre0 c) in H.
      destruct (IH _ H) as [pre [post [-> [K L]]]].
      exists (String c pre), post.
      rewrite append_assoc in K. split; [reflexivity|]. split; [exact K|].
      intros pre' m' post' E K'.
      destruct pre' as [|c' pre']; simpl in E.
      * exfalso. rewrite E in M. rewrite append_empty in K'.
        exact (match_here_None _ _ _ M K').
      * injection E as <- E. simpl. apply le_n_S.
        apply (L pre' m' post' E). rewrite append_assoc. exact K'.
Qed.

(** The search fails only on a text without keyword. *)
Lemma search_from_None (pre0 s : string) :
  search_from isalnum (last_char pre0) s = None ->
  forall pre m post,
    s = pre ++ m ++ post -> ~ keyword_at isalnum (pre0 ++ pre) m post.
Proof.
  revert pre0. induction s as [|c s IH]; intros pre0 H pre m post E.
  - simpl in H.
    destruct (match_here isalnum (last_char pre0) "") eqn:M; [discriminate|].
    destruct pre; [|discriminate]. simpl in E. rewrite E in M.
    rewrite append_empty.
    now apply match_here_None.
  - cbn [search_from] in H.
    destruct (match_here isalnum (last_char pre0) (String c s)) eqn:M;
      [discriminate|].
    destruct pre as [|c' pre]; simpl in E.
    + rewrite E in M. rewrite append_empty.
      now apply match_here_None.
    + injection E as <- E. rewrite <- (last_char_snoc pre0 c) in H.
      replace (pre0 ++ String c pre) with ((pre0 ++ String c "") ++ pre)
        by (rewrite append_assoc; reflexivity).
      now apply (IH _ H).
Qed.

End SearchProofs.

Lemma mapM_total {A B : Type} (f : A -> result B) (l : list A) :
  Forall (fun x => exists y, f x = Ok y) l -> exists ys, mapM f l = Ok ys.
Proof.
  induction 1 as [|x l [y Hy] _ [ys IH]]; simpl; [eauto|].
  rewrite Hy. simpl. rewrite IH. simpl. eauto.
Qed.

Section KeywordClaims.

Variable py_str : json -> string.
Variable lower : string -> string.
Variable isalnum : char -> bool.

Lemma page_ok_reads (p : json) :
  page_ok p = true ->
  (exists t, page_title p = Ok t)
  /\ (exists u, desktop_url p = Ok u)
  /\ (forall k d, exists v, py_get p k d = Ok v).
Proof.
  unfold page_ok, page_title, desktop_url, py_index, py_get.
  destruct p as [| | | | | |m]; try discriminate.
  intros H. apply andb_prop in H. destruct H as [Ht Hc].
  destruct (assoc "title" m) as [[| | | |s| |]|]; try discriminate.
  split; [simpl; eauto|]. split; [|eauto].
  destruct (assoc "content_urls" m) as [[| | | | | |c]|];
    try discriminate; simpl; eauto.
  destruct (assoc "desktop" c) as [[| | | | | |d]|];
    try discriminate; simpl; eauto.
Qed.

Lemma page_ok_topic_url (p : json) :
  page_ok p = true -> exists z, topic_url py_str p = Ok z.
Proof.
  intros H. destruct (page_ok_reads p H) as [[t Ht] [[u Hu] _]].
  unfold topic_url. rewrite Ht, Hu. simpl. eauto.
Qed.

Lemma page_ok_coordinates (ps : list json) :
  Forall (fun p => page_ok p = true) ps ->
  exists c, first_coordinates ps = Ok c.
Proof.
  induction 1 as [|p ps Hp _ [c IH]]; simpl; [eauto|].
  destruct (page_ok_reads p Hp) as [_ [_ G]].
  destruct (G "coordinates" JNull) as [v ->]. simpl.
  destruct (truthy v); eauto.
Qed.

(** C7, as amended. Of an event of a daily feed with text [t]: when no
    word of the pattern stands in [t] between word boundaries, its letters
    read as [re.I] reads them (in either case, and with U+0130 and U+0131
    for i, U+212A for k and U+017F for s), the event is left out of both
    accumulators; when the event is accepted, its [crime_type] is
    [str.lower] of the leftmost such match in [t]; and when the match the
    search finds in [t] lowers to "bombing", the year is 1995 and the pages
    are a non-empty list whose first MAX_PAGES are readable pages, the
    event is accepted with [crime_type] "bombing". *)
Theorem keyword_rule (mm dd : string) (ev : json) (t : string) :
  py_index ev "text" = Ok (JStr t) ->
  ((forall pre m post,
       t = pre ++ m ++ post -> ~ keyword_at isalnum pre m post) ->
   onthisday_event py_str lower isalnum mm dd ev = Ok None)
  /\ (forall r,
        onthisday_event py_str lower isalnum mm dd ev = Ok (Some r) ->
        exists pre g post,
          t = pre ++ g ++ post
          /\ keyword_at isalnum pre g post
          /\ (forall pre' m' post',
                t = pre' ++ m' ++ post' ->
                keyword_at isalnum pre' m' post' ->
                (String.length pre <= String.length pre')%nat)
          /\ crime_type r = lower g)
  /\ (forall g P,
        CRIME_RE_search isalnum t = Some g ->
        lower g = "bombing" ->
        py_get ev "year" JNull = Ok (JNum 1995) ->
        py_get ev "pages" (JArr []) = Ok (JArr P) ->
        P <> [] ->
        Forall (fun p => page_ok p = true) (firstn MAX_PAGES P) ->
        exists r,
          onthisday_event py_str lower isalnum mm dd ev = Ok (Some r)
          /\ crime_type r = "bombing" /\ year_of_event r = JNum 1995
          /\ forall label rest a,
               events_loop py_str lower isalnum mm dd label (ev :: rest) a
               = events_loop py_str lower isalnum mm dd label rest
                             (accept label r a)).
Proof.
  intros Ht. split; [|split].
  - intros Hno. unfold onthisday_event. rewrite Ht. cbn [bind].
    destruct (CRIME_RE_search isalnum t) as [g|] eqn:S; [|reflexivity].
    apply (search_from_sound isalnum "" t g) in S.
    destruct S as [pre [post [E [K _]]]]. exfalso. exact (Hno _ _ _ E K).
  - intros r H. apply onthisday_event_Ok in H.
    destruct H as [_ [_ [_ [_ [t' [g [Ht' [S [_ Hc]]]]]]]]].
    rewrite Ht in Ht'. injection Ht' as <-.
    apply (search_from_sound isalnum "" t g) in S.
    destruct S as [pre [post [E [K L]]]]. exists pre, g, post. auto.
  - intros g P S Hg Hy Hp Hne Hok.
    cut (exists r, onthisday_event py_str lower isalnum mm dd ev = Ok (Some r)
                   /\ crime_type r = "bombing" /\ year_of_event r = JNum 1995).
    { intros [r [H [Hc Hyr]]]. exists r. repeat split; auto.
      intros label rest a. cbn [events_loop]. rewrite H. reflexivity. }
    unfold onthisday_event. rewrite Ht. cbn [bind]. rewrite S, Hy. cbn [bind].
    change (year_check (JNum 1995))
      with (@Ok (option json) (Some (JNum 1995))).
    cbn [bind]. rewrite Hp. cbn [bind].
    destruct P as [|p ps]; [congruence|]. cbn [truthy negb py_first bind].
    assert (Hp0 : page_ok p = true) by (now inversion Hok).
    destruct (page_ok_reads p Hp0) as [[ti ->] [[u ->] G]].
    destruct (G "description" (JStr "")) as [de ->].
    destruct (G "extract" (JStr "")) as [ex ->]. cbn [bind py_slice].
    assert (S0 : slice 0 MAX_PAGES (p :: ps) = firstn MAX_PAGES (p :: ps))
      by reflexivity.
    assert (S1 : slice 1 MAX_PAGES (p :: ps)
                 = skipn 1 (firstn MAX_PAGES (p :: ps))).
    { unfold slice. apply (firstn_skipn_comm (MAX_PAGES - 1) 1 (p :: ps)). }
    rewrite S0, S1.
    destruct (page_ok_coordinates _ Hok) as [c ->]. cbn [bind].
    assert (Hrel : Forall (fun p => page_ok p = true)
                          (skipn 1 (firstn MAX_PAGES (p :: ps)))).
    { apply Forall_forall. intros q Hq. rewrite Forall_forall in Hok.
      apply Hok. rewrite <- (firstn_skipn 1 (firstn MAX_PAGES (p :: ps))).
      apply in_or_app. now right. }
    destruct (mapM_total page_title (skipn 1 (firstn MAX_PAGES (p :: ps))))
      as [ts ->].
    { eapply Forall_impl; [|exact Hrel]. intros q Hq.
      now destruct (page_ok_reads q Hq) as [? _]. }
    destruct (mapM_total (topic_url py_str)
                (skipn 1 (firstn MAX_PAGES (p :: ps)))) as [zs ->].
    { eapply Forall_impl; [|exact Hrel]. intros q Hq.
      now apply page_ok_topic_url. }
    cbn [bind]. eexists. split; [reflexivity|]. cbn [crime_type year_of_event].
    split; [exact Hg | reflexivity].
Qed.

End KeywordClaims.

Lemma keyword_rule_witness :
  ((forall pre m post,
       "Oklahoma City bombing: a truck bomb kills 168 people"
       = pre ++ m ++ post -> ~ keyword_at isalnum_basic pre m post) ->
   onthisday_event py_str_scalar lower_basic isalnum_basic "04" "19"
                   ev_bombing
   = Ok None)
  /\ (forall r,
        onthisday_event py_str_scalar lower_basic isalnum_basic "04" "19"
                        ev_bombing
        = Ok (Some r) ->
        exists pre g post,
          "Oklahoma City bombing: a truck bomb kills 168 people"
          = pre ++ g ++ post
          /\ keyword_at isalnum_basic pre g post
          /\ (forall pre' m' post',
                "Oklahoma City bombing: a truck bomb kills 168 people"
                = pre' ++ m' ++ post' ->
                keyword_at isalnum_basic pre' m' post' ->
                (String.length pre <= String.length pre')%nat)
          /\ crime_type r = lower_basic g)
  /\ (forall g P,
        CRIME_RE_search isalnum_basic
          "Oklahoma City bombing: a truck bomb kills 168 people"
        = Some g ->
        lower_basic g = "bombing" ->
        py_get ev_bombing "year" JNull = Ok (JNum 1995) ->
        py_get ev_bombing "pages" (JArr []) = Ok (JArr P) ->
        P <> [] ->
        Forall (fun p => page_ok p = true) (firstn MAX_PAGES P) ->
        exists r,
          onthisday_event py_str_scalar lower_basic isalnum_basic "04" "19"
                          ev_bombing
          = Ok (Some r)
          /\ crime_type r = "bombing" /\ year_of_event r = JNum 1995
          /\ forall label rest a,
               events_loop py_str_scalar lower_basic isalnum_basic "04" "19"
                           label (ev_bombing :: rest) a
               = events_loop py_str_scalar lower_basic isalnum_basic "04" "19"
                             label rest (accept label r a)).
Proof.
  apply (keyword_rule py_str_scalar lower_basic isalnum_basic "04" "19"
           ev_bombing
           "Oklahoma City bombing: a truck bomb kills 168 people").
  reflexivity.
Defined.

(** C7, as stated, fails on its example: a text that holds the word bombing
    after another keyword gives an accepted record whose [crime_type] is
    that other keyword; a text that holds bombing inside a longer word only
    is left out; and an event with a page that has no title is not
    included but ends the loop. *)
Lemma bombing_text_other_outcomes :
  (containsb "bombing" "A terrorist bombing destroys a federal building" = true
   /\ py_get ev_terrorist_bombing "year" JNull = Ok (JNum 1995)
   /\ exists r,
        onthisday_event py_str_scalar lower_basic isalnum_basic "04" "19"
                        ev_terrorist_bombing
        = Ok (Some r)
        /\ crime_type r = "terrorist" /\ crime_type r <> "bombing")
  /\ (containsb "bombing" "The firebombing of the city begins" = true
      /\ py_get ev_firebombing "year" JNull = Ok (JNum 1995)
      /\ onthisday_event py_str_scalar lower_basic isalnum_basic "04" "19"
                         ev_firebombing
         = Ok None)
  /\ (containsb "bombing" "A bombing in the city" = true
      /\ py_get ev_no_title "year" JNull = Ok (JNum 1995)
      /\ onthisday_event py_str_scalar lower_basic isalnum_basic "04" "19"
                         ev_no_title
         = Raise KeyError).
Proof.
  split; [|split].
  - split; [reflexivity|]. split; [reflexivity|].
    eexists. split; [vm_compute; reflexivity|].
    split; [reflexivity | discriminate].
  - repeat split.
  - repeat split.
Defined.

(** ** The exporter *)

Section SortBy.

Variables K A : Type.
Variable le : K -> K -> bool.
Hypothesis le_total : forall a b, le a b = false -> le b a = true.
Hypothesis le_trans :
  forall a b c, le a b = true -> le b c = true -> le a c = true.

Local Abbreviation key_le := (fun x y : K * A => le (fst x) (fst y) = true).

Lemma insert_by_perm (x : K * A) (l : list (K * A)) :
  Permutation (x :: l) (insert_by le x l).
Proof.
  induction l as [|y l IH]; simpl; [reflexivity|].
  destruct (le (fst x) (fst y)); [reflexivity|].
  rewrite perm_swap. now apply perm_skip.
Qed.

Lemma sort_by_perm (l : list (K * A)) : Permutation l (sort_by le l).
Proof.
  induction l as [|x l IH]; simpl; [reflexivity|].
  rewrite <- insert_by_perm. now apply perm_skip.
Qed.

Lemma insert_by_sorted (x : K * A) (l : list (K * A)) :
  StronglySorted key_le l -> StronglySorted key_le (insert_by le x l).
Proof.
  induction 1 as [|y l Hs IH Hy]; simpl.
  - repeat constructor.
  - destruct (le (fst x) (fst y)) eqn:E.
    + constructor; [now constructor|].
      constructor; [exact E|].
      eapply Forall_impl; [|exact Hy]. intros z Hz. simpl in *.
      eapply le_trans; eassumption.
    + constructor; [exact IH|].
      apply (Permutation_Forall (insert_by_perm x l)).
      constructor; [now apply le_total | exact Hy].
Qed.

Lemma sort_by_sorted (l : list (K * A)) : StronglySorted key_le (sort_by le l).
Proof.
  induction l as [|x l IH]; simpl; [constructor|].
  now apply insert_by_sorted.
Qed.

End SortBy.

Lemma date_lt_spec (y1 m1 d1 y2 m2 d2 : Z) :
  date_lt (y1, m1, d1) (y2, m2, d2) = true
  <-> y1 < y2 \/ (y1 = y2 /\ (m1 < m2 \/ (m1 = m2 /\ d1 < d2))).
Proof.
  unfold date_lt.
  rewrite !orb_true_iff, !andb_true_iff, !orb_true_iff, !andb_true_iff,
    !Z.ltb_lt, !Z.eqb_eq.
  tauto.
Qed.

Lemma date_le_total (a b : Z * Z * Z) :
  date_le a b = false -> date_le b a = true.
Proof.
  destruct a as [[y1 m1] d1], b as [[y2 m2] d2]. unfold date_le.
  rewrite negb_false_iff, negb_true_iff. intros H.
  apply date_lt_spec in H. apply not_true_is_false. intros H'.
  apply date_lt_spec in H'. lia.
Qed.

Lemma date_le_trans (a b c : Z * Z * Z) :
  date_le a b = true -> date_le b c = true -> date_le a c = true.
Proof.
  destruct a as [[y1 m1] d1], b as [[y2 m2] d2], c as [[y3 m3] d3].
  unfold date_le. rewrite !negb_true_iff. intros H1 H2.
  apply not_true_is_false. intros H3.
  apply not_true_iff_false in H1, H2.
  rewrite date_lt_spec in H1, H2, H3. lia.
Qed.

Lemma date_le_neq_lt (a b : Z * Z * Z) :
  date_le a b = true -> a <> b -> date_lt a b = true.
Proof.
  destruct a as [[y1 m1] d1], b as [[y2 m2] d2]. unfold date_le.
  rewrite negb_true_iff. intros H Hne. apply not_true_iff_false in H.
  rewrite date_lt_spec in *.
  assert (~ (y1 = y2 /\ m1 = m2 /\ d1 = d2)) by (intros [-> [-> ->]]; auto).
  lia.
Qed.

(** Distinct sorted keys increase strictly. *)
Lemma sorted_NoDup_strict (keys : list (Z * Z * Z)) :
  StronglySorted (fun a b => date_le a b = true) keys ->
  NoDup keys ->
  StronglySorted (fun a b => date_lt a b = true) keys.
Proof.
  induction 1 as [|k keys Hs IH Hk]; intros Hn; [constructor|].
  inversion Hn as [|? ? Hnin Hn']; subst.
  constructor; [auto|].
  apply Forall_forall. intros k' Hin. rewrite Forall_forall in Hk.
  apply date_le_neq_lt; [auto|]. intros ->. contradiction.
Qed.

Lemma StronglySorted_map {A B : Type} (f : A -> B) (R : B -> B -> Prop)
  (l : list A) :
  StronglySorted (fun x y => R (f x) (f y)) l -> StronglySorted R (map f l).
Proof.
  induction 1 as [|x l Hs IH Hx]; simpl; constructor; auto.
  apply Forall_map. exact Hx.
Qed.

Lemma calendar_days_checked (P : Z -> Z -> bool) :
  forallb (fun i => forallb (fun j => P (Z.of_nat i) (Z.of_nat j)) (seq 0 32))
          (seq 0 13) = true ->
  forall m d, calendar_day m d = true -> P m d = true.
Proof.
  intros H m d Hc. apply calendar_day_bounds in Hc.
  rewrite forallb_forall in H.
  assert (Hm : In (Z.to_nat m) (seq 0 13)) by (apply in_seq; lia).
  specialize (H _ Hm). rewrite forallb_forall in H.
  assert (Hd : In (Z.to_nat d) (seq 0 32)) by (apply in_seq; lia).
  specialize (H _ Hd). rewrite !Z2Nat.id in H by lia. exact H.
Qed.

(** [strptime_plain] reads back the label of every calendar day. *)
Lemma strptime_plain_label (m d : Z) :
  calendar_day m d = true ->
  strptime_plain (date_label m d ++ " 2024") = Some (2024, m, d).
Proof.
  intros Hc.
  pose proof (calendar_days_checked
    (fun m d =>
       negb (calendar_day m d)
       || match strptime_plain (date_label m d ++ " 2024") with
          | Some (y, m', d') => (y =? 2024) && (m' =? m) && (d' =? d)
          | None => false
          end)) as H.
  specialize (H ltac:(vm_compute; reflexivity) m d Hc). simpl in H.
  rewrite Hc in H. simpl in H.
  destruct (strptime_plain _) as [[[y m'] d']|]; [|discriminate].
  apply andb_prop in H. destruct H as [H H3].
  apply andb_prop in H. destruct H as [H1 H2].
  apply Z.eqb_eq in H1, H2, H3. now subst.
Qed.


Section ExporterClaims.

Variable strptime_B_d_Y : string -> option (Z * Z * Z).

(** [strptime] reads the label of a calendar day, with the year appended,
    back to that day. *)
Hypothesis strptime_label :
  forall m d,
    calendar_day m d = true ->
    strptime_B_d_Y (date_label m d ++ " 2024") = Some (2024, m, d).

Lemma keys_of_labels (g : date_groups) :
  Forall (fun kv => exists m d,
              calendar_day m d = true /\ fst kv = date_label m d) g ->
  exists keyed,
    mapM (fun kv => k <- label_key strptime_B_d_Y (fst kv) ;; Ok (k, kv)) g
    = Ok keyed
    /\ map snd keyed = g /\ Forall keyed_ok keyed.
Proof.
  induction 1 as [|kv g [m [d [Hc Hl]]] _ [keyed [E [Hs Hf]]]]; simpl.
  - exists []. repeat split; constructor.
  - unfold label_key at 1. rewrite Hl, (strptime_label m d Hc).
    cbn [bind]. rewrite E. cbn [bind].
    exists (((2024, m, d), kv) :: keyed). simpl. rewrite Hs.
    repeat split. constructor; [|exact Hf]. exists m, d. auto.
Qed.

Lemma keyed_ok_label_key (keyed : list ((Z * Z * Z) * (string * list entry))) :
  Forall keyed_ok keyed ->
  mapM (label_key strptime_B_d_Y) (map fst (map snd keyed))
  = Ok (map fst keyed).
Proof.
  induction 1 as [|kk keyed [m [d [Hc [Hk Hl]]]] _ IH]; simpl; [reflexivity|].
  unfold label_key at 1. rewrite Hl, (strptime_label m d Hc), <- Hk.
  cbn [bind]. rewrite IH. reflexivity.
Qed.

Lemma keyed_ok_NoDup (keyed : list ((Z * Z * Z) * (string * list entry))) :
  Forall keyed_ok keyed ->
  NoDup (map fst (map snd keyed)) -> NoDup (map fst keyed).
Proof.
  intros Hf Hn.
  assert (E : map fst (map snd keyed)
              = map (fun k : Z * Z * Z => date_label (snd (fst k)) (snd k))
                    (map fst keyed)).
  { clear Hn. induction Hf as [|kk keyed [m [d [_ [Hk Hl]]]] _ IH]; simpl;
      [reflexivity|].
    rewrite IH, Hl, Hk. reflexivity. }
  rewrite E in Hn. now apply NoDup_map_inv in Hn.
Qed.

(** The sort of the keys of a map of date labels. *)
Lemma sort_date_groups (g : date_groups) :
  date_labelled g ->
  exists g' mds,
    sorted_events_by_date strptime_B_d_Y g = Ok g'
    /\ Permutation g g'
    /\ mapM (label_key strptime_B_d_Y) (map fst g')
       = Ok (map (fun md => (2024, fst md, snd md)) mds)
    /\ Forall (fun md => calendar_day (fst md) (snd md) = true) mds
    /\ StronglySorted (fun a b => md_lt a b = true) mds.
Proof.
  intros [Hn Hf].
  destruct (keys_of_labels g Hf) as [keyed [E [Hs Hk]]].
  unfold sorted_events_by_date. rewrite E. cbn [bind].
  pose proof (sort_by_perm _ _ date_le keyed) as Hp.
  pose proof (sort_by_sorted _ _ date_le date_le_total date_le_trans keyed)
    as Hsort.
  set (sorted := sort_by date_le keyed) in *.
  assert (Hk' : Forall keyed_ok sorted)
    by (exact (Permutation_Forall Hp Hk)).
  exists (map snd sorted),
         (map (fun kk => (snd (fst (fst kk)), snd (fst kk))) sorted).
  split; [reflexivity|].
  split; [rewrite <- Hs; now apply Permutation_map|].
  assert (Hkeys : map (fun md : Z * Z => (2024, fst md, snd md))
                      (map (fun kk : (Z * Z * Z) * (string * list entry) =>
                              (snd (fst (fst kk)), snd (fst kk))) sorted)
                  = map fst sorted).
  { clear -Hk'. induction Hk' as [|kk l [m [d [_ [Hk _]]]] _ IH]; simpl;
      [reflexivity|].
    rewrite IH, Hk. reflexivity. }
  split; [rewrite Hkeys; now apply keyed_ok_label_key|].
  split.
  - apply Forall_map. eapply Forall_impl; [|exact Hk'].
    intros kk [m [d [Hc [Hkk _]]]]. simpl. rewrite Hkk. exact Hc.
  - assert (Hnd : NoDup (map fst sorted)).
    { apply keyed_ok_NoDup; [exact Hk'|].
      apply (Permutation_NoDup (l := map fst g)); [|exact Hn].
      rewrite <- Hs. now do 2 apply Permutation_map. }
    apply (StronglySorted_map fst (fun a b => date_le a b = true)) in Hsort.
    pose proof (sorted_NoDup_strict _ Hsort Hnd) as Hstrict.
    clear -Hstrict Hk'.
    induction Hk' as [|kk l [m [d [_ [Hk _]]]] Hl IH]; simpl; [constructor|].
    inversion Hstrict as [|? ? Hs' Hall]; subst.
    constructor; [now apply IH|].
    apply Forall_map. rewrite Forall_map in Hall.
    rewrite Forall_forall in *. intros k2 Hin.
    specialize (Hall k2 Hin). specialize (Hl k2 Hin).
    destruct Hl as [m2 [d2 [_ [Hk2 _]]]]. rewrite Hk, Hk2 in *. simpl.
    apply date_lt_spec in Hall. unfold md_lt. simpl.
    rewrite orb_true_iff, andb_true_iff, !Z.ltb_lt, Z.eqb_eq. lia.
Qed.

(** C6. The exporter sorts a non-empty Date Group Map without failure; the
    result holds the same items, and its keys, parsed back, are the (month,
    day) pairs of calendar days in strictly increasing order. *)
Theorem sorted_keys_chronological (g : date_groups) :
  g <> [] ->
  date_labelled g ->
  exists g' mds,
    sorted_events_by_date strptime_B_d_Y g = Ok g'
    /\ Permutation g g'
    /\ mapM (label_key strptime_B_d_Y) (map fst g')
       = Ok (map (fun md => (2024, fst md, snd md)) mds)
    /\ Forall (fun md => calendar_day (fst md) (snd md) = true) mds
    /\ StronglySorted (fun a b => md_lt a b = true) mds.
Proof.
  intros _. apply sort_date_groups.
Qed.

Variable iso_fields : string -> option (Z * Z * Z).
Variable py_str : json -> string.
Variable lower : string -> string.
Variable isalnum : char -> bool.


End ExporterClaims.

Example acc_sample_collected :
  collect iso_fields_basic py_str_scalar lower_basic isalnum_basic
          wikidata_sample feeds_sample
  = Ok acc_sample
  /\ map event (all_rows acc_sample)
     = ["Astor Place shooting"; "Tokyo subway attack";
        "Oklahoma City bombing: a truck bomb kills 168 people";
        "A terrorist bombing destroys a federal building"]
  /\ map (fun kv => (fst kv, List.length (snd kv))) (events_by_date acc_sample)
     = [("June 15", 1%nat); ("March 20", 1%nat); ("April 19", 2%nat)].
Proof. repeat split; vm_compute; reflexivity. Qed.

Example acc_sample_sorted :
  exists g,
    sorted_events_by_date strptime_plain (events_by_date acc_sample) = Ok g
    /\ map fst g = ["March 20"; "April 19"; "June 15"].
Proof. eexists. split; [vm_compute; reflexivity | reflexivity]. Qed.

Lemma sorted_keys_chronological_witness :
  exists g' mds,
    sorted_events_by_date strptime_plain (events_by_date acc_sample) = Ok g'
    /\ Permutation (events_by_date acc_sample) g'
    /\ mapM (label_key strptime_plain) (map fst g')
       = Ok (map (fun md => (2024, fst md, snd md)) mds)
    /\ Forall (fun md => calendar_day (fst md) (snd md) = true) mds
    /\ StronglySorted (fun a b => md_lt a b = true) mds.
Proof.
  apply (sorted_keys_chronological strptime_plain strptime_plain_label
           (events_by_date acc_sample)).
  - vm_compute. discriminate.
  - apply (collect_date_labelled iso_fields_basic py_str_scalar lower_basic
             isalnum_basic wikidata_sample feeds_sample acc_sample).
    vm_compute. reflexivity.
Defined.


Example export_nothing :
  main iso_fields_basic py_str_scalar lower_basic isalnum_basic strptime_plain
       JNull (fun _ => None) "20240101_120000"
  = ([Print NothingToSave], None).
Proof. vm_compute. reflexivity. Qed.

(** * Further properties of the code *)

(** ** The Wikidata normalizer *)

Section WikidataMore.

Variable iso_fields : string -> option (Z * Z * Z).
Variable lower : string -> string.

(** X1. A response that is empty, or has no [results], or whose [results]
    have no [bindings], makes the normalizer return at once: the
    accumulators are as they were and no counter is reported. *)
Theorem wikidata_nothing_to_process (data : json) (a : acc) :
  truthy data = false
  \/ (exists m, data = JObj m /\ assoc "results" m = None)
  \/ (exists m r,
        data = JObj m /\ assoc "results" m = Some (JObj r)
        /\ assoc "bindings" r = None) ->
  process_wikidata_results iso_fields lower data a = Ok (a, None).
Proof.
  unfold process_wikidata_results.
  intros [H|[[m [-> H]]|[m [r [-> [H1 H2]]]]]].
  - rewrite H. reflexivity.
  - destruct (truthy (JObj m)); [|reflexivity].
    cbn [negb py_in bind]. rewrite H. reflexivity.
  - destruct (truthy (JObj m)); [|reflexivity].
    cbn [negb py_in py_index bind]. rewrite H1. cbn [negb bind py_in].
    rewrite H2. reflexivity.
Qed.

(** X2. A row whose date is absent, empty, unreadable or not a day of the
    calendar is skipped: the skipped counter moves by one, the accumulators
    and the processed counter stay, and the loop goes on with the rows that
    follow. *)
Theorem wikidata_bad_date_skipped (item : json) (v : json)
  (rest : list json) (st : wikidata_state) :
  binding_value item "date" JNull = Ok v ->
  bad_date iso_fields v ->
  wikidata_loop iso_fields lower (item :: rest) st
  = wikidata_loop iso_fields lower rest
      (mkwd (wd_acc st) (processed_count st) (S (skipped_count st))).
Proof.
  intros Hv Hb.
  assert (E : wikidata_row iso_fields lower item = Raise ValueError).
  { unfold wikidata_row, item_date. rewrite Hv. cbn [bind].
    destruct Hb as [->|[->|[s [-> Hs]]]]; try reflexivity.
    destruct (truthy (JStr s)); [|reflexivity].
    cbn [negb as_str bind]. unfold fromisoformat.
    destruct (iso_fields _) as [[[y m] d]|]; [|reflexivity].
    rewrite Hs. reflexivity. }
  cbn [wikidata_loop]. rewrite E. reflexivity.
Qed.

(** X3. A row that is not an object, or whose date field is not an object,
    raises an [AttributeError], which the loop does not catch: the batch
    ends there, whatever rows follow. *)
Theorem wikidata_malformed_row_aborts (item : json) (rest : list json)
  (st : wikidata_state) :
  is_object item = false
  \/ (exists m f,
        item = JObj m /\ assoc "date" m = Some f /\ is_object f = false) ->
  wikidata_loop iso_fields lower (item :: rest) st = Raise AttributeError.
Proof.
  intros H.
  assert (E : wikidata_row iso_fields lower item = Raise AttributeError).
  { unfold wikidata_row, item_date, binding_value.
    destruct H as [H|[m [f [-> [Hf H]]]]].
    - destruct item; try discriminate; reflexivity.
    - cbn [py_get bind]. rewrite Hf.
      destruct f; try discriminate; reflexivity. }
  cbn [wikidata_loop]. rewrite E. reflexivity.
Qed.

(** X4. An accepted Wikidata row: [event] and [title] are the label, which
    is not empty and does not start with Q; [crime_type] is the category
    label lowercased, "crime" when the row has none; [country] and [url]
    default to the empty string; the description is fixed and the fields
    only a daily feed fills are empty. *)
Theorem wikidata_row_fields (item : json) (label : string) (r : row) :
  wikidata_row iso_fields lower item = Ok (label, r) ->
  source r = "Wikidata"
  /\ item_label item = Ok (event r) /\ title r = event r
  /\ event r <> "" /\ prefixb "Q" (event r) = false
  /\ description r = JStr "Source: Wikidata"
  /\ (exists c,
        binding_value item "crimeTypeLabel" (JStr "crime") = Ok (JStr c)
        /\ crime_type r = lower c)
  /\ binding_value item "countryLabel" (JStr "") = Ok (country r)
  /\ binding_value item "article" (JStr "") = Ok (url r)
  /\ latitude r = JStr "" /\ longitude r = JStr "" /\ extract r = JStr ""
  /\ related_topics r = "" /\ topic_page_urls r = "".
Proof.
  intros H. unfold wikidata_row in H. ok_inv H. subst label r. simpl.
  split; [reflexivity|]. split; [assumption|]. split; [reflexivity|].
  assert (L : x0 <> "" /\ prefixb "Q" x0 = false).
  { unfold item_label in E0. ok_inv E0. subst.
    split; [|assumption].
    destruct x5 as [| | | |s| |]; try discriminate. injection E6 as <-.
    intros ->. discriminate. }
  destruct L as [L1 L2]. split; [exact L1|]. split; [exact L2|].
  split; [reflexivity|]. split.
  - destruct x2; try discriminate. injection E3 as <-. eauto.
  - repeat split; assumption.
Qed.

(** X5. The loop adds to the flat list the rows of the accepted items, in
    the order of the batch, and nothing else; the processed counter moves
    by their number. *)
Theorem wikidata_loop_rows (items : list json) (st st' : wikidata_state) :
  wikidata_loop iso_fields lower items st = Ok st' ->
  all_rows (wd_acc st')
  = (all_rows (wd_acc st) ++ wikidata_rows iso_fields lower items)%list
  /\ processed_count st'
     = (processed_count st
        + List.length (wikidata_rows iso_fields lower items))%nat.
Proof.
  revert st. induction items as [|item rest IH]; intros st H.
  - injection H as <-. simpl. rewrite app_nil_r. auto.
  - cbn [wikidata_loop] in H. unfold wikidata_rows. cbn [flat_map].
    fold (wikidata_rows iso_fields lower rest).
    destruct (wikidata_row iso_fields lower item) as [[label r]|e].
    + apply IH in H. destruct H as [H1 H2]. simpl in H1, H2.
      rewrite H1, H2, <- app_assoc. simpl. split; [reflexivity | lia].
    + destruct e; try discriminate; apply IH in H; exact H.
Qed.

End WikidataMore.

Lemma wikidata_nothing_to_process_witness :
  process_wikidata_results iso_fields_basic lower_basic
    (JObj [("head", JObj []); ("results", JObj [("distinct", JBool false)])])
    acc_sample
  = Ok (acc_sample, None).
Proof.
  apply (wikidata_nothing_to_process iso_fields_basic).
  right. right. do 2 eexists. repeat split.
Defined.

Lemma wikidata_bad_date_skipped_witness :
  wikidata_loop iso_fields_basic lower_basic [row_bad_date; row_1995]
                (mkwd (mkacc [] []) 0 0)
  = wikidata_loop iso_fields_basic lower_basic [row_1995]
                  (mkwd (mkacc [] []) 0 1).
Proof.
  apply (wikidata_bad_date_skipped iso_fields_basic lower_basic row_bad_date
           (JStr "March 1995") [row_1995] (mkwd (mkacc [] []) 0 0)).
  - reflexivity.
  - right. right. exists "March 1995". split; reflexivity.
Defined.

Lemma wikidata_malformed_row_aborts_witness :
  wikidata_loop iso_fields_basic lower_basic
    [JObj [("date", JStr "1995-03-20T00:00:00Z")]; row_1995]
    (mkwd (mkacc [] []) 0 0)
  = Raise AttributeError.
Proof.
  apply (wikidata_malformed_row_aborts iso_fields_basic).
  right. do 2 eexists. repeat split.
Defined.

Lemma wikidata_row_fields_witness :
  source row_dunblane = "Wikidata"
  /\ item_label row_unlabelled_crime = Ok (event row_dunblane)
  /\ title row_dunblane = event row_dunblane
  /\ event row_dunblane <> "" /\ prefixb "Q" (event row_dunblane) = false
  /\ description row_dunblane = JStr "Source: Wikidata"
  /\ (exists c,
        binding_value row_unlabelled_crime "crimeTypeLabel" (JStr "crime")
        = Ok (JStr c)
        /\ crime_type row_dunblane = lower_basic c)
  /\ binding_value row_unlabelled_crime "countryLabel" (JStr "")
     = Ok (country row_dunblane)
  /\ binding_value row_unlabelled_crime "article" (JStr "")
     = Ok (url row_dunblane)
  /\ latitude row_dunblane = JStr "" /\ longitude row_dunblane = JStr ""
  /\ extract row_dunblane = JStr ""
  /\ related_topics row_dunblane = "" /\ topic_page_urls row_dunblane = "".
Proof.
  apply (wikidata_row_fields iso_fields_basic lower_basic row_unlabelled_crime
           "March 13" row_dunblane).
  vm_compute. reflexivity.
Defined.

Lemma wikidata_loop_rows_witness :
  all_rows (accept "March 13" row_dunblane (mkacc [] []))
  = ([] ++ wikidata_rows iso_fields_basic lower_basic
             [row_bad_date; row_unlabelled_crime])%list
  /\ 1%nat
     = (0 + List.length (wikidata_rows iso_fields_basic lower_basic
                           [row_bad_date; row_unlabelled_crime]))%nat.
Proof.
  apply (wikidata_loop_rows iso_fields_basic lower_basic
           [row_bad_date; row_unlabelled_crime]
           (mkwd (mkacc [] []) 0 0)
           (mkwd (accept "March 13" row_dunblane (mkacc [] [])) 1 1)).
  vm_compute. reflexivity.
Defined.

(** ** The loop of a daily feed *)

Lemma slice_firstn {A : Type} (a b n : nat) (l : list A) :
  (b <= n)%nat -> slice a b (firstn n l) = slice a b l.
Proof.
  intros H. unfold slice.
  rewrite skipn_firstn_comm, firstn_firstn.
  f_equal. lia.
Qed.

Section OnThisDayMore.

Variable py_str : json -> string.
Variable lower : string -> string.
Variable isalnum : char -> bool.

(** Everything the body of the loop read to build an accepted row. *)
Lemma onthisday_event_inv (mm dd : string) (ev : json) (r : row) :
  onthisday_event py_str lower isalnum mm dd ev = Ok (Some r) ->
  exists p ps c,
    py_get ev "pages" (JArr []) = Ok (JArr (p :: ps))
    /\ page_title p = Ok (title r)
    /\ py_get p "description" (JStr "") = Ok (description r)
    /\ desktop_url p = Ok (url r)
    /\ py_get p "extract" (JStr "") = Ok (extract r)
    /\ first_coordinates (firstn MAX_PAGES (p :: ps)) = Ok c
    /\ latitude r = coordinate c "lat" /\ longitude r = coordinate c "lon"
    /\ country r = JStr "".
Proof.
  intros H. unfold onthisday_event in H.
  apply bind_Ok in H. destruct H as [text [Et H]].
  destruct text as [| | | |t| |]; try discriminate.
  destruct (CRIME_RE_search isalnum t) as [g|]; [|discriminate].
  apply bind_Ok in H. destruct H as [y [Ey H]].
  apply bind_Ok in H. destruct H as [yc [Eyc H]].
  destruct yc as [event_year|]; [|discriminate].
  apply bind_Ok in H. destruct H as [pages [Ep H]].
  destruct (negb (truthy pages)); [discriminate|].
  apply bind_Ok in H. destruct H as [fp [Ef H]].
  apply bind_Ok in H. destruct H as [ti [Eti H]].
  destruct pages as [| | | |s|P|]; try discriminate.
  { destruct s; [discriminate|]. injection Ef as <-. discriminate. }
  destruct P as [|p ps]; [discriminate|]. injection Ef as <-.
  apply bind_Ok in H. destruct H as [de [Ede H]].
  apply bind_Ok in H. destruct H as [u [Eu H]].
  apply bind_Ok in H. destruct H as [ex [Eex H]].
  apply bind_Ok in H. destruct H as [scanned [Esc H]].
  apply bind_Ok in H. destruct H as [c [Ec H]].
  unfold py_slice in Esc. injection Esc as <-.
  ok_inv H. subst r. simpl.
  exists p, ps, c. repeat split; assumption.
Qed.


(** X7. An accepted event takes its [title], [description], [url] and
    [extract] from the first of its pages: the title with underscores
    replaced by spaces, the other three as they are, the empty string when
    the page lacks them; [country] is empty. *)
Theorem onthisday_primary_page (mm dd : string) (ev : json) (r : row) :
  onthisday_event py_str lower isalnum mm dd ev = Ok (Some r) ->
  exists p ps s,
    py_get ev "pages" (JArr []) = Ok (JArr (p :: ps))
    /\ py_index p "title" = Ok (JStr s)
    /\ title r = replace_char "_" " " s
    /\ py_get p "description" (JStr "") = Ok (description r)
    /\ desktop_url p = Ok (url r)
    /\ py_get p "extract" (JStr "") = Ok (extract r)
    /\ country r = JStr "".
Proof.
  intros H. apply onthisday_event_inv in H.
  destruct H as [p [ps [c [Hp [Ht [Hd [Hu [He [_ [_ [_ Hc]]]]]]]]]]].
  unfold page_title in Ht. ok_inv Ht.
  destruct x as [| | | |s| |]; try discriminate. injection E0 as <-.
  exists p, ps, s. repeat split; auto.
Qed.

Lemma first_coordinates_found (ps : list json) (c : json) :
  first_coordinates ps = Ok c ->
  (Forall no_coordinates ps /\ c = JStr "")
  \/ exists before p after,
       ps = (before ++ p :: after)%list
       /\ Forall no_coordinates before
       /\ py_get p "coordinates" JNull = Ok c /\ truthy c = true.
Proof.
  revert c. induction ps as [|p ps IH]; simpl; intros c H.
  - injection H as <-. left. split; [constructor | reflexivity].
  - apply bind_Ok in H. destruct H as [c0 [E H]].
    destruct (truthy c0) eqn:T.
    + injection H as <-. right. exists [], p, ps.
      repeat split; auto.
    + assert (N : no_coordinates p) by (exists c0; auto).
      destruct (IH _ H) as [[Hf ->]|[before [q [after [-> [Hf [Hq Hc]]]]]]].
      * left. split; [constructor; assumption | reflexivity].
      * right. exists (p :: before), q, after.
        repeat split; auto.
Qed.

(** X8. The coordinates of an accepted event are those of the first page,
    among the first MAX_PAGES, whose [coordinates] are truthy: [latitude]
    and [longitude] are its [lat] and [lon], the empty string for one it
    lacks or when the coordinates are not an object. When no such page has
    coordinates, both are empty. *)
Theorem onthisday_coordinates (mm dd : string) (ev : json) (r : row) :
  onthisday_event py_str lower isalnum mm dd ev = Ok (Some r) ->
  exists P,
    py_get ev "pages" (JArr []) = Ok (JArr P)
    /\ ((Forall no_coordinates (firstn MAX_PAGES P)
         /\ latitude r = JStr "" /\ longitude r = JStr "")
        \/ exists before p after c,
             firstn MAX_PAGES P = (before ++ p :: after)%list
             /\ Forall no_coordinates before
             /\ py_get p "coordinates" JNull = Ok c /\ truthy c = true
             /\ latitude r = coordinate c "lat"
             /\ longitude r = coordinate c "lon").
Proof.
  intros H. apply onthisday_event_inv in H.
  destruct H as [p [ps [c [Hp [_ [_ [_ [_ [Hc [Hla [Hlo _]]]]]]]]]]].
  exists (p :: ps). split; [exact Hp|].
  destruct (first_coordinates_found _ _ Hc)
    as [[Hf ->]|[before [q [after [E [Hf [Hq Ht]]]]]]].
  - left. auto.
  - right. exists before, q, after, c. auto 10.
Qed.

(** X9. Pages after the first MAX_PAGES are never read: an event gives the
    same outcome, row or exception, as the event with only its first
    MAX_PAGES pages. *)
Theorem onthisday_pages_beyond_max_unread (mm dd : string)
  (m : list (string * json)) (P : list json) :
  onthisday_event py_str lower isalnum mm dd (with_pages m P)
  = onthisday_event py_str lower isalnum mm dd
                    (with_pages m (firstn MAX_PAGES P)).
Proof.
  unfold onthisday_event, with_pages.
  change (py_index (JObj (("pages", JArr P) :: m)) "text")
    with (py_index (JObj m) "text").
  change (py_index (JObj (("pages", JArr (firstn MAX_PAGES P)) :: m)) "text")
    with (py_index (JObj m) "text").
  destruct (py_index (JObj m) "text") as [text|e]; [|reflexivity].
  cbn [bind]. destruct text; try reflexivity.
  destruct (CRIME_RE_search isalnum s); [|reflexivity].
  change (py_get (JObj (("pages", JArr P) :: m)) "year" JNull)
    with (py_get (JObj m) "year" JNull).
  change (py_get (JObj (("pages", JArr (firstn MAX_PAGES P)) :: m))
            "year" JNull)
    with (py_get (JObj m) "year" JNull).
  destruct (py_get (JObj m) "year" JNull) as [y|e]; [|reflexivity].
  cbn [bind]. destruct (year_check y) as [[z|]|e]; try reflexivity.
  cbn [bind].
  change (py_get (JObj (("pages", JArr P) :: m)) "pages" (JArr []))
    with (@Ok json (JArr P)).
  change (py_get (JObj (("pages", JArr (firstn MAX_PAGES P)) :: m))
            "pages" (JArr []))
    with (@Ok json (JArr (firstn MAX_PAGES P))).
  cbn [bind]. destruct P as [|p ps]; [reflexivity|].
  change (firstn MAX_PAGES (p :: ps)) with (p :: firstn 4 ps).
  cbn [truthy negb py_first bind py_slice].
  change (p :: firstn 4 ps) with (firstn MAX_PAGES (p :: ps)).
  rewrite !slice_firstn by (unfold MAX_PAGES; lia). reflexivity.
Qed.

End OnThisDayMore.


Lemma onthisday_primary_page_witness :
  exists p ps s,
    py_get ev_bombing "pages" (JArr []) = Ok (JArr (p :: ps))
    /\ py_index p "title" = Ok (JStr s)
    /\ title row_bombing = replace_char "_" " " s
    /\ py_get p "description" (JStr "") = Ok (description row_bombing)
    /\ desktop_url p = Ok (url row_bombing)
    /\ py_get p "extract" (JStr "") = Ok (extract row_bombing)
    /\ country row_bombing = JStr "".
Proof.
  apply (onthisday_primary_page py_str_scalar lower_basic isalnum_basic
           "04" "19" ev_bombing row_bombing).
  vm_compute. reflexivity.
Defined.

Lemma onthisday_coordinates_witness :
  exists P,
    py_get ev_bombing "pages" (JArr []) = Ok (JArr P)
    /\ ((Forall no_coordinates (firstn MAX_PAGES P)
         /\ latitude row_bombing = JStr ""
         /\ longitude row_bombing = JStr "")
        \/ exists before p after c,
             firstn MAX_PAGES P = (before ++ p :: after)%list
             /\ Forall no_coordinates before
             /\ py_get p "coordinates" JNull = Ok c /\ truthy c = true
             /\ latitude row_bombing = coordinate c "lat"
             /\ longitude row_bombing = coordinate c "lon").
Proof.
  apply (onthisday_coordinates py_str_scalar lower_basic isalnum_basic
           "04" "19" ev_bombing row_bombing).
  vm_compute. reflexivity.
Defined.

(** ** The pattern *)

Section PatternMore.

Variable py_str : json -> string.
Variable lower : string -> string.
Variable isalnum : char -> bool.

(** X11. The search finds nothing exactly in the texts where no word of the
    pattern, read as [re.I] reads its letters, stands between word
    boundaries. *)
Theorem CRIME_RE_search_None_iff (t : string) :
  CRIME_RE_search isalnum t = None
  <-> forall pre m post,
        t = pre ++ m ++ post -> ~ keyword_at isalnum pre m post.
Proof.
  split.
  - intros H pre m post E.
    exact (search_from_None isalnum "" t H pre m post E).
  - intros H.
    destruct (CRIME_RE_search isalnum t) as [g|] eqn:S; [|reflexivity].
    apply (search_from_sound isalnum "" t g) in S.
    destruct S as [pre [post [E [K _]]]]. exfalso. exact (H _ _ _ E K).
Qed.

Lemma plain_text_app (a b : string) :
  plain_text (a ++ b) = plain_text a && plain_text b.
Proof.
  induction a as [|c a IH]; [reflexivity|].
  cbn [append plain_text]. rewrite IH. apply andb_assoc.
Qed.

(** A letter of the pattern, met by a character that is none of the four
    letters from U+0100 on, is met by itself or by its capital. *)
Lemma ci_match_plain (a b : char) :
  pattern_letter a = true ->
  ci_match a b = true ->
  special_letter b = false ->
  (code b <? 128)%N = true
  /\ (if in_range 65 90 b then (code b + 32)%N else b) = a.
Proof.
  unfold pattern_letter, ci_match, special_letter, in_range, char_eqb, code.
  intros Ha Hm Hs.
  repeat rewrite orb_false_iff in Hs. destruct Hs as [[[S1 S2] S3] S4].
  apply N.eqb_neq in S1, S2, S3, S4.
  apply orb_prop in Ha. rewrite andb_true_iff, !N.leb_le, N.eqb_eq in Ha.
  repeat rewrite ?orb_true_iff, ?andb_true_iff, ?N.eqb_eq in Hm.
  destruct ((65 <=? b)%N && (b <=? 90)%N) eqn:U.
  - apply andb_prop in U. destruct U as [U1 U2].
    apply N.leb_le in U1, U2.
    split; [apply N.ltb_lt; lia|].
    destruct Hm as [[[[Hm|[_ Hm]]|[_ [Hm|Hm]]]|[_ Hm]]|[_ Hm]]; lia.
  - destruct Hm as [[[[Hm|[[H1 H2] _]]|[_ [Hm|Hm]]]|[_ Hm]]|[_ Hm]];
      try contradiction.
    + subst b. split; [apply N.ltb_lt; lia | reflexivity].
    + rewrite H1, H2 in U. discriminate.
Qed.

Lemma ci_equal_plain (w m : string) :
  pattern_word w = true ->
  ci_equal w m = true ->
  plain_text m = true ->
  ascii_text m = true /\ lower_ascii m = w.
Proof.
  revert m. induction w as [|a w IH]; intros [|b m] Hw C P;
    try discriminate; [split; reflexivity|].
  cbn [pattern_word ci_equal plain_text] in Hw, C, P.
  apply andb_prop in Hw, C, P.
  destruct Hw as [Ha Hw], C as [E C], P as [Pb P].
  apply negb_true_iff in Pb.
  destruct (ci_match_plain a b Ha E Pb) as [A L].
  destruct (IH m Hw C P) as [A' L'].
  cbn [ascii_text lower_ascii]. rewrite A, A', L'. split; [reflexivity|].
  f_equal. exact L.
Qed.

Lemma pattern_words_checked :
  forall w, In w CRIME_WORDS -> pattern_word w = true.
Proof.
  apply forallb_forall. vm_compute. reflexivity.
Qed.

(** [str.lower] on a text of ASCII characters moves its capitals by 32 and
    nothing else. *)
Hypothesis lower_ascii_text :
  forall s, ascii_text s = true -> lower s = lower_ascii s.

(** X10. For a text that holds none of the letters U+0130, U+0131, U+017F
    and U+212A, the [crime_type] of the record accepted from the event is
    one of the words of the pattern, in lower case. *)
Theorem onthisday_crime_type_vocabulary (mm dd : string) (ev : json)
  (t : string) (r : row) :
  py_index ev "text" = Ok (JStr t) ->
  plain_text t = true ->
  onthisday_event py_str lower isalnum mm dd ev = Ok (Some r) ->
  In (crime_type r) CRIME_WORDS.
Proof.
  intros Ht P H. apply onthisday_event_Ok in H.
  destruct H as [_ [_ [_ [_ [t' [g [Ht' [S [_ ->]]]]]]]]].
  rewrite Ht in Ht'. injection Ht' as <-.
  apply (search_from_sound isalnum "" t g) in S.
  destruct S as [pre [post [E [[[w [Hin C]] _] _]]]].
  rewrite E, !plain_text_app in P.
  apply andb_prop in P. destruct P as [_ P].
  apply andb_prop in P. destruct P as [P _].
  destruct (ci_equal_plain w g (pattern_words_checked w Hin) C P) as [A L].
  rewrite (lower_ascii_text g A), L. exact Hin.
Qed.

End PatternMore.

Lemma CRIME_RE_search_None_iff_witness :
  CRIME_RE_search isalnum_basic "The firebombing of the city begins" = None
  <-> forall pre m post,
        "The firebombing of the city begins" = pre ++ m ++ post ->
        ~ keyword_at isalnum_basic pre m post.
Proof.
  apply (CRIME_RE_search_None_iff isalnum_basic
           "The firebombing of the city begins").
Defined.

Lemma lower_basic_ascii (s : string) :
  ascii_text s = true -> lower_basic s = lower_ascii s.
Proof.
  induction s as [|c s IH]; [reflexivity|].
  cbn [ascii_text lower_basic lower_ascii]. intros H.
  apply andb_prop in H. destruct H as [A H]. rewrite (IH H).
  unfold in_range, code in *. apply N.ltb_lt in A.
  destruct ((65 <=? c)%N && (c <=? 90)%N) eqn:U; [reflexivity|].
  replace ((192 <=? c)%N) with false by (symmetry; apply N.leb_gt; lia).
  replace ((c =? 304)%N) with false by (symmetry; apply N.eqb_neq; lia).
  replace ((c =? 8490)%N) with false by (symmetry; apply N.eqb_neq; lia).
  reflexivity.
Qed.

Lemma onthisday_crime_type_vocabulary_witness :
  In (crime_type row_bombing) CRIME_WORDS.
Proof.
  apply (onthisday_crime_type_vocabulary py_str_scalar lower_basic
           isalnum_basic lower_basic_ascii "04" "19" ev_bombing
           "Oklahoma City bombing: a truck bomb kills 168 people"
           row_bombing).
  - reflexivity.
  - vm_compute. reflexivity.
  - vm_compute. reflexivity.
Defined.

(** ** The days of the loop *)

Lemma day_of_year_day_date (day : nat) :
  In day (seq 1 366) ->
  day_of_year (month_of (day_date day)) (day_of (day_date day)) = day.
Proof.
  intros H.
  assert (C : forallb
                (fun day => Nat.eqb (day_of_year (month_of (day_date day))
                                                 (day_of (day_date day))) day)
                (seq 1 366) = true) by (vm_compute; reflexivity).
  rewrite forallb_forall in C. apply Nat.eqb_eq. exact (C day H).
Qed.

Lemma day_date_day_of_year (m d : Z) :
  calendar_day m d = true ->
  In (day_of_year m d) (seq 1 366)
  /\ day_date (day_of_year m d) = mkdate 2024 m d.
Proof.
  intros Hc.
  pose proof (calendar_days_checked
    (fun m d =>
       negb (calendar_day m d)
       || (Nat.leb 1 (day_of_year m d) && Nat.leb (day_of_year m d) 366
           && (year (day_date (day_of_year m d)) =? 2024)
           && (month_of (day_date (day_of_year m d)) =? m)
           && (day_of (day_date (day_of_year m d)) =? d)))) as H.
  specialize (H ltac:(vm_compute; reflexivity) m d Hc). cbv beta in H.
  rewrite Hc in H. cbn [negb orb] in H.
  repeat (apply andb_prop in H; let H' := fresh "B" in destruct H as [H H']).
  apply Nat.leb_le in H, B2. apply Z.eqb_eq in B, B0, B1.
  split; [apply in_seq; lia|].
  destruct (day_date (day_of_year m d)) as [y' m' d']. simpl in *.
  now subst.
Qed.

(** X13. Every day of the calendar, February 29 and December 31 included,
    is the date of exactly one turn of the loop over [range(1, 367)]. *)
Theorem every_calendar_day_once (m d : Z) :
  calendar_day m d = true ->
  exists day,
    In day (seq 1 366)
    /\ day_date day = mkdate 2024 m d
    /\ forall day',
         In day' (seq 1 366) -> day_date day' = mkdate 2024 m d ->
         day' = day.
Proof.
  intros Hc. destruct (day_date_day_of_year m d Hc) as [Hin Hd].
  exists (day_of_year m d). split; [exact Hin|]. split; [exact Hd|].
  intros day' Hin' Hd'.
  rewrite <- (day_of_year_day_date day' Hin'), Hd'. reflexivity.
Qed.

(** X14. Two days of the calendar with the same date label, or with the
    same [month] and [day] fields, are the same day. *)
Theorem date_label_injective (m d m' d' : Z) :
  calendar_day m d = true ->
  calendar_day m' d' = true ->
  date_label m d = date_label m' d'
  \/ (fmt02 m = fmt02 m' /\ fmt02 d = fmt02 d') ->
  m = m' /\ d = d'.
Proof.
  intros Hc Hc' [H|[Hm Hd]].
  - pose proof (strptime_plain_label m d Hc) as P.
    rewrite H, (strptime_plain_label m' d' Hc') in P.
    injection P as -> ->. auto.
  - apply calendar_day_bounds in Hc, Hc'.
    assert (Some m = Some m') as Em
      by (rewrite <- (int_of_fmt02 m), <- (int_of_fmt02 m'), Hm by lia;
          reflexivity).
    assert (Some d = Some d') as Ed
      by (rewrite <- (int_of_fmt02 d), <- (int_of_fmt02 d'), Hd by lia;
          reflexivity).
    injection Em as ->. injection Ed as ->. auto.
Qed.

Lemma every_calendar_day_once_witness :
  exists day,
    In day (seq 1 366)
    /\ day_date day = mkdate 2024 2 29
    /\ forall day',
         In day' (seq 1 366) -> day_date day' = mkdate 2024 2 29 ->
         day' = day.
Proof.
  apply (every_calendar_day_once 2 29). reflexivity.
Defined.

Lemma date_label_injective_witness :
  calendar_day 2 29 = true
  /\ date_label 2 29 = "February 29"
  /\ (2 = 2 /\ 29 = 29).
Proof.
  split; [reflexivity|]. split; [reflexivity|].
  apply (date_label_injective 2 29 2 29);
           [reflexivity | reflexivity | left; reflexivity].
Defined.

(** ** How the phases compose *)

Section CollectMore.

Variable iso_fields : string -> option (Z * Z * Z).
Variable py_str : json -> string.
Variable lower : string -> string.
Variable isalnum : char -> bool.

Lemma wikidata_loop_sources (items : list json) (st st' : wikidata_state) :
  wikidata_loop iso_fields lower items st = Ok st' ->
  exists rows,
    all_rows (wd_acc st') = (all_rows (wd_acc st) ++ rows)%list
    /\ Forall (fun r => source r = "Wikidata") rows.
Proof.
  revert st. induction items as [|item rest IH]; intros st H.
  - injection H as <-. exists []. rewrite app_nil_r. auto.
  - cbn [wikidata_loop] in H.
    destruct (wikidata_row iso_fields lower item) as [[label r]|e] eqn:E.
    + apply IH in H. destruct H as [rows [H1 H2]]. simpl in H1.
      exists (r :: rows). rewrite H1, <- app_assoc. split; [reflexivity|].
      constructor; [|exact H2].
      apply wikidata_row_Ok in E. destruct E as [dt E]. tauto.
    + destruct e; try discriminate; apply IH in H; exact H.
Qed.

Lemma events_loop_sources (mm dd label : string) (evs : list json)
  (a a' : acc) :
  events_loop py_str lower isalnum mm dd label evs a = Ok a' ->
  exists rows,
    all_rows a' = (all_rows a ++ rows)%list
    /\ Forall (fun r => source r = "OnThisDay") rows.
Proof.
  revert a. induction evs as [|ev rest IH]; intros a H.
  - injection H as <-. exists []. rewrite app_nil_r. auto.
  - cbn [events_loop] in H. apply bind_Ok in H. destruct H as [o [E H]].
    destruct o as [r|]; [|exact (IH _ H)].
    apply IH in H. destruct H as [rows [H1 H2]]. simpl in H1.
    exists (r :: rows). rewrite H1, <- app_assoc. split; [reflexivity|].
    constructor; [|exact H2].
    apply onthisday_event_Ok in E. tauto.
Qed.

Lemma days_loop_sources (days : list nat) (feeds : nat -> option json)
  (a a' : acc) :
  days_loop py_str lower isalnum days feeds a = Ok a' ->
  exists rows,
    all_rows a' = (all_rows a ++ rows)%list
    /\ Forall (fun r => source r = "OnThisDay") rows.
Proof.
  revert a. induction days as [|day rest IH]; intros a H.
  - injection H as <-. exists []. rewrite app_nil_r. auto.
  - cbn [days_loop] in H. apply bind_Ok in H. destruct H as [a1 [E H]].
    apply IH in H. destruct H as [rows2 [H1 H2]].
    assert (exists rows1,
               all_rows a1 = (all_rows a ++ rows1)%list
               /\ Forall (fun r => source r = "OnThisDay") rows1)
      as [rows1 [G1 G2]].
    { unfold onthisday_day in E. destruct (feeds day) as [data|].
      - ok_inv E. eapply events_loop_sources; eassumption.
      - injection E as <-. exists []. rewrite app_nil_r. auto. }
    exists (rows1 ++ rows2)%list. rewrite H1, G1, <- app_assoc.
    split; [reflexivity | apply Forall_app; auto].
Qed.

(** X15. In the flat list of a run the records of Wikidata come first, in
    one block, and the records of the daily feeds after them. *)
Theorem collect_sources_in_order (wikidata_json : json)
  (feeds : nat -> option json) (a : acc) :
  collect iso_fields py_str lower isalnum wikidata_json feeds = Ok a ->
  exists from_wikidata from_feeds,
    all_rows a = (from_wikidata ++ from_feeds)%list
    /\ Forall (fun r => source r = "Wikidata") from_wikidata
    /\ Forall (fun r => source r = "OnThisDay") from_feeds.
Proof.
  intros H. unfold collect in H.
  apply bind_Ok in H. destruct H as [a1 [E H]].
  apply days_loop_sources in H. destruct H as [o [H1 H2]].
  assert (W : Forall (fun r => source r = "Wikidata") (all_rows a1)).
  { destruct (truthy wikidata_json); [|injection E as <-; constructor].
    apply bind_Ok in E. destruct E as [out [E E']]. injection E' as <-.
    unfold process_wikidata_results in E. ok_inv E; subst;
      try (simpl; constructor).
    match goal with
    | L : wikidata_loop _ _ _ _ = Ok _ |- _ =>
        apply wikidata_loop_sources in L; destruct L as [rows [G1 G2]]
    end.
    simpl in *. rewrite G1. exact G2. }
  exists (all_rows a1), o. auto.
Qed.

(** Accepting a record extends the accumulators. *)
Lemma extends_accept (a a0 : acc) (label : string) (r : row) :
  extends a a0 -> extends a (accept label r a0).
Proof.
  intros [[rows Hr] [[keys Hk] He]]. split; [|split].
  - exists (rows ++ [r])%list. simpl. rewrite Hr, <- app_assoc. reflexivity.
  - simpl. rewrite group_append_keys, Hk.
    destruct (in_dec string_dec label _).
    + exists keys. reflexivity.
    + exists (keys ++ [label])%list. rewrite <- app_assoc. reflexivity.
  - intros label'. simpl. rewrite group_append_entries.
    destruct (He label') as [es E]. rewrite E.
    destruct (String.eqb label label').
    + exists (es ++ [(event r, payload_of r)])%list.
      rewrite <- app_assoc. reflexivity.
    + exists es. reflexivity.
Qed.

Lemma extends_refl (a : acc) : extends a a.
Proof.
  split; [|split]; [exists [] | exists [] | intros label; exists []];
    rewrite app_nil_r; reflexivity.
Qed.

(** X16. A batch only appends: after it the flat list is the old list with
    rows added at its end, the keys of the map are the old keys in their
    order with new keys after them, and under every label the old entries
    stand unchanged before the new ones. *)
Theorem normalize_appends_only (b : batch) (a a' : acc) :
  normalize iso_fields py_str lower isalnum b a = Ok a' -> extends a a'.
Proof.
  apply (normalize_inv iso_fields py_str lower isalnum (extends a)).
  - intros label r a0 _. apply extends_accept.
  - apply extends_refl.
Qed.

(** A day whose request failed, or whose feed has no events, adds
    nothing. *)
Lemma days_loop_nothing (days : list nat) (feeds : nat -> option json)
  (a : acc) :
  (forall day,
      feeds day = None
      \/ exists m,
           feeds day = Some (JObj m)
           /\ (assoc "events" m = None \/ assoc "events" m = Some (JArr []))) ->
  days_loop py_str lower isalnum days feeds a = Ok a.
Proof.
  intros H. induction days as [|day rest IH]; [reflexivity|].
  cbn [days_loop]. unfold onthisday_day.
  destruct (H day) as [->|[m [-> [E|E]]]]; cbn [py_get bind];
    rewrite ?E; cbn [py_iter bind events_loop]; exact IH.
Qed.

End CollectMore.

(** X17. When the Wikidata query gave nothing and every day's request
    failed or gave a feed without events, the run ends normally: it prints
    that there is nothing to save and writes nothing. *)
Theorem main_nothing_collected (iso_fields : string -> option (Z * Z * Z))
  (py_str : json -> string) (lower : string -> string)
  (isalnum : char -> bool) (strptime_B_d_Y : string -> option (Z * Z * Z))
  (wikidata_json : json) (feeds : nat -> option json) (timestamp : string) :
  truthy wikidata_json = false ->
  (forall day,
      feeds day = None
      \/ exists m,
           feeds day = Some (JObj m)
           /\ (assoc "events" m = None \/ assoc "events" m = Some (JArr []))) ->
  main iso_fields py_str lower isalnum strptime_B_d_Y wikidata_json feeds
    timestamp
  = ([Print NothingToSave], None).
Proof.
  intros Hw Hf. unfold main, collect. rewrite Hw. cbn [bind].
  rewrite (days_loop_nothing py_str lower isalnum _ feeds _ Hf). reflexivity.
Qed.

Lemma collect_sources_in_order_witness :
  exists from_wikidata from_feeds,
    all_rows acc_sample = (from_wikidata ++ from_feeds)%list
    /\ Forall (fun r => source r = "Wikidata") from_wikidata
    /\ Forall (fun r => source r = "OnThisDay") from_feeds.
Proof.
  apply (collect_sources_in_order iso_fields_basic py_str_scalar lower_basic
           isalnum_basic
           wikidata_sample feeds_sample acc_sample).
  vm_compute. reflexivity.
Defined.

Lemma normalize_appends_only_witness :
  extends acc_sample
    (accept "April 19" row_bombing acc_sample).
Proof.
  apply (normalize_appends_only iso_fields_basic py_str_scalar lower_basic
           isalnum_basic
           (OnThisDayBatch 110 (Some (JObj [("events", JArr [ev_bombing])])))
           acc_sample).
  vm_compute. reflexivity.
Defined.

Lemma main_nothing_collected_witness :
  main iso_fields_basic py_str_scalar lower_basic isalnum_basic strptime_plain
    JNull
       (fun day => if Nat.even day then None
                   else Some (JObj [("date", JStr "today")]))
       "20240101_120000"
  = ([Print NothingToSave], None).
Proof.
  apply main_nothing_collected; [reflexivity|].
  intros day. destruct (Nat.even day); [left; reflexivity|].
  right. eexists. split; [reflexivity | left; reflexivity].
Defined.

(** ** Underscores in titles *)

Lemma containsb_underscore_cons (c : char) (s : string) :
  containsb "_" (String c s) = char_eqb "_" c || containsb "_" s.
Proof.
  cbn [containsb prefixb]. rewrite andb_true_r. reflexivity.
Qed.

Lemma containsb_underscore_app (a b : string) :
  containsb "_" (a ++ b) = containsb "_" a || containsb "_" b.
Proof.
  induction a as [|c a IH].
  - cbn [append]. destruct b; reflexivity.
  - cbn [append]. rewrite !containsb_underscore_cons, IH.
    now rewrite orb_assoc.
Qed.

Lemma replace_underscore_none (s : string) :
  containsb "_" (replace_char "_" " " s) = false.
Proof.
  induction s as [|c s IH]; [reflexivity|].
  cbn [replace_char]. destruct (char_eqb c "_") eqn:E.
  - rewrite containsb_underscore_app, IH. reflexivity.
  - rewrite containsb_underscore_cons, IH, char_eqb_sym, E. reflexivity.
Qed.

Lemma join_underscore_none (l : list string) :
  Forall (fun s => containsb "_" s = false) l ->
  containsb "_" (join ", " l) = false.
Proof.
  induction 1 as [|s l Hs Hl IH]; [reflexivity|].
  destruct l as [|s' l]; [exact Hs|].
  change (join ", " (s :: s' :: l)) with (s ++ ", " ++ join ", " (s' :: l)).
  rewrite !containsb_underscore_app, Hs, IH. reflexivity.
Qed.

(** X19. The [title] and the [related_topics] of a record accepted from a
    daily feed hold no underscore. *)
Theorem onthisday_titles_without_underscore (py_str : json -> string)
  (lower : string -> string) (isalnum : char -> bool)
  (mm dd : string) (ev : json) (r : row) :
  onthisday_event py_str lower isalnum mm dd ev = Ok (Some r) ->
  containsb "_" (title r) = false
  /\ containsb "_" (related_topics r) = false.
Proof.
  intros H. split.
  - apply onthisday_event_inv in H.
    destruct H as [p [ps [c [_ [Ht _]]]]].
    unfold page_title in Ht. ok_inv Ht. rewrite <- Ht.
    apply replace_underscore_none.
  - apply onthisday_event_pages in H.
    destruct H as [P [topics [urls [_ [_ [Ht [_ [-> _]]]]]]]].
    apply join_underscore_none. apply mapM_Forall2 in Ht.
    clear -Ht. induction Ht as [|p t ps ts Hp _ IH]; constructor; auto.
    unfold page_title in Hp. ok_inv Hp. rewrite <- Hp.
    apply replace_underscore_none.
Qed.

Lemma onthisday_titles_without_underscore_witness :
  containsb "_" (title row_bombing) = false
  /\ containsb "_" (related_topics row_bombing) = false.
Proof.
  apply (onthisday_titles_without_underscore py_str_scalar lower_basic
           isalnum_basic "04" "19"
           ev_bombing row_bombing).
  vm_compute. reflexivity.
Defined.
